(** * LockBay-Binance: the request-signing and forwarding engine

    A shallow embedding of [BinanceAuth] (constructor, [generateSignature],
    [createSignedParams], [getHeaders], [makeRequest], [testCredentials],
    [getServerTime]), of the Express error middleware [errorHandler], of the
    routes that connect the two and of the start of the application,
    followed by the properties the specification states about them and by
    further properties of the code.

    Conventions of the embedding.
    - A JavaScript string is a [string]: each character stands for one UTF-16
      code unit below 256.  Inside that range comparison by code unit is
      comparison by character code, [encodeURIComponent] writes code units
      above 127 as two UTF-8 bytes, and so does the hash input.
    - A JavaScript number is a [Z]: the integer-valued numbers that print in
      plain decimal (every millisecond clock reading and every upstream error
      code is one).  Fractions, NaN and the negative zero are outside.
    - An object is the list of its own enumerable properties in the order
      [Object.keys] reports them.
    - [Date.now()], [new Date().toISOString()], [process.env] and the result
      of [axios(config)] are inputs of the functions that read them. *)

From Stdlib Require Import ZArith NArith List String Ascii Bool Lia.
From Stdlib Require Import DecimalString Permutation Sorted.
Import ListNotations.

Open Scope string_scope.
Open Scope list_scope.
Open Scope Z_scope.

Infix "+++" := String.append (right associativity, at level 60).

(** ** JavaScript values, objects and the string functions the code calls *)

Module JS.

#[warnings="-register-all"]
Inductive value : Type :=
| VUndefined
| VNull
| VBool (b : bool)
| VNum (z : Z)
| VStr (s : string)
| VObj (props : list (string * value)).

Definition obj : Type := list (string * value).

(** ToBoolean. *)
Definition truthy (v : value) : bool :=
  match v with
  | VUndefined | VNull => false
  | VBool b => b
  | VNum z => negb (z =? 0)
  | VStr s => negb (s =? "")%string
  | VObj _ => true
  end.

(** [a || b] and [a && b] on values. *)
Definition or_else (a b : value) : value := if truthy a then a else b.
Definition and_then (a b : value) : value := if truthy a then b else a.

Definition nullish (v : value) : bool :=
  match v with
  | VUndefined | VNull => true
  | _ => false
  end.

(** ToString, for the values of the embedding; a plain object prints as
    [[object Object]]. *)
Definition toString (v : value) : string :=
  match v with
  | VUndefined => "undefined"
  | VNull => "null"
  | VBool true => "true"
  | VBool false => "false"
  | VNum z => NilZero.string_of_int (Z.to_int z)
  | VStr s => s
  | VObj _ => "[object Object]"
  end.

(** *** Own properties *)

Fixpoint lookup (k : string) (o : obj) : option value :=
  match o with
  | [] => None
  | (k', v) :: rest => if (k =? k')%string then Some v else lookup k rest
  end.

(** [v.k] for a [v] that is neither [undefined] nor [null]; none of the
    property names the code reads exists on a primitive or on a prototype. *)
Definition get (v : value) (k : string) : value :=
  match v with
  | VObj o => match lookup k o with Some x => x | None => VUndefined end
  | _ => VUndefined
  end.

(** [v?.k] *)
Definition opt_get (v : value) (k : string) : value :=
  if nullish v then VUndefined else get v k.

Definition keys (o : obj) : list string := map fst o.

Definition is_digit (c : ascii) : bool :=
  let n := N_of_ascii c in ((48 <=? n) && (n <=? 57))%N.

Fixpoint digits_value (acc : N) (s : string) : option N :=
  match s with
  | EmptyString => Some acc
  | String c rest =>
      if is_digit c
      then digits_value (10 * acc + (N_of_ascii c - 48))%N rest
      else None
  end.

(** An array index is a canonical decimal numeral below 2^32 - 1; such keys
    come first in the own-key order, by ascending value. *)
Definition array_index (k : string) : option N :=
  match k with
  | EmptyString => None
  | String c rest =>
      if (N_of_ascii c =? 48)%N && negb (rest =? "")%string then None
      else match digits_value 0%N k with
           | Some n => if (n <? 4294967295)%N then Some n else None
           | None => None
           end
  end.

Fixpoint update (k : string) (v : value) (o : obj) : obj :=
  match o with
  | [] => []
  | (k', v') :: rest =>
      if (k =? k')%string then (k', v) :: rest else (k', v') :: update k v rest
  end.

Fixpoint insert_index (n : N) (k : string) (v : value) (o : obj) : obj :=
  match o with
  | [] => [(k, v)]
  | (k', v') :: rest =>
      match array_index k' with
      | Some m => if (n <? m)%N then (k, v) :: o
                  else (k', v') :: insert_index n k v rest
      | None => (k, v) :: o
      end
  end.

(** [o[k] = v]: an existing property keeps its place, a new array index
    goes to its numeric place, any other new key goes last. *)
Definition set (o : obj) (k : string) (v : value) : obj :=
  match lookup k o with
  | Some _ => update k v o
  | None =>
      match array_index k with
      | Some n => insert_index n k v o
      | None => o ++ [(k, v)]
      end
  end.

(** [{...o}]: the own properties copied, in key order, into a new object. *)
Definition spread (o : obj) : obj :=
  fold_left (fun acc kv => set acc (fst kv) (snd kv)) o [].

(** The representation invariant: no key twice, array indices first and
    ascending. *)
Definition own_before (k1 k2 : string) : bool :=
  negb (k1 =? k2)%string &&
  match array_index k2 with
  | Some n => match array_index k1 with
              | Some m => (m <? n)%N
              | None => false
              end
  | None => true
  end.

Fixpoint wf_keys (ks : list string) : bool :=
  match ks with
  | [] => true
  | k :: rest => forallb (own_before k) rest && wf_keys rest
  end.

Definition wf (o : obj) : bool := wf_keys (keys o).

(** *** Strings *)

(** [String.prototype.toLowerCase] on code units below 256. *)
Definition lower_char (c : ascii) : ascii :=
  let n := N_of_ascii c in
  if ((65 <=? n) && (n <=? 90))%N then ascii_of_N (n + 32)
  else if ((192 <=? n) && (n <=? 222) && negb (n =? 215))%N
       then ascii_of_N (n + 32)
       else c.

Fixpoint toLowerCase (s : string) : string :=
  match s with
  | EmptyString => EmptyString
  | String c rest => String (lower_char c) (toLowerCase rest)
  end.

Fixpoint mem_char (c : ascii) (s : string) : bool :=
  match s with
  | EmptyString => false
  | String d rest => (c =? d)%char || mem_char c rest
  end.

(** The characters [encodeURIComponent] leaves as they are. *)
Definition unreserved (c : ascii) : bool :=
  let n := N_of_ascii c in
  ((65 <=? n) && (n <=? 90))%N || ((97 <=? n) && (n <=? 122))%N ||
  is_digit c || mem_char c "-_.!~*'()".

Definition hex_upper (n : N) : ascii :=
  match String.get (N.to_nat n) "0123456789ABCDEF" with
  | Some c => c
  | None => "0"%char
  end.

Definition percent (b : N) : string :=
  String "%" (String (hex_upper (b / 16)) (String (hex_upper (b mod 16)) "")).

(** UTF-8 of one code unit below 256. *)
Definition utf8_char (c : ascii) : list N :=
  let n := N_of_ascii c in
  if (n <? 128)%N then [n] else [192 + n / 64; 128 + n mod 64]%N.

Fixpoint utf8 (s : string) : list N :=
  match s with
  | EmptyString => []
  | String c rest => utf8_char c ++ utf8 rest
  end.

Fixpoint encodeURIComponent (s : string) : string :=
  match s with
  | EmptyString => EmptyString
  | String c rest =>
      (if unreserved c then String c ""
       else String.concat "" (map percent (utf8_char c)))
      +++ encodeURIComponent rest
  end.

(** [Array.prototype.sort()] with no comparator, on strings: ascending by
    code units.  The order is total and antisymmetric, so every sorting
    algorithm returns this list. *)
Fixpoint insert_sorted (k : string) (l : list string) : list string :=
  match l with
  | [] => [k]
  | k' :: rest =>
      if (k <=? k')%string then k :: l else k' :: insert_sorted k rest
  end.

Fixpoint sort (l : list string) : list string :=
  match l with
  | [] => []
  | k :: rest => insert_sorted k (sort rest)
  end.

(** [Array.prototype.join] *)
Definition join (sep : string) (l : list string) : string :=
  String.concat sep l.

(** [String.prototype.toUpperCase] on code units below 256.  The sharp s
    becomes [SS]; the micro sign and the y with diaeresis have their capitals
    above 255, where this embedding has no strings: [None]. *)
Definition upper_char (c : ascii) : option string :=
  let n := N_of_ascii c in
  if ((97 <=? n) && (n <=? 122))%N then Some (String (ascii_of_N (n - 32)) "")
  else if (n =? 223)%N then Some "SS"
  else if ((n =? 181) || (n =? 255))%N then None
  else if ((224 <=? n) && (n <=? 254) && negb (n =? 247))%N
       then Some (String (ascii_of_N (n - 32)) "")
       else Some (String c "").

Fixpoint toUpperCase (s : string) : option string :=
  match s with
  | EmptyString => Some EmptyString
  | String c rest =>
      match upper_char c, toUpperCase rest with
      | Some u, Some r => Some (u +++ r)
      | _, _ => None
      end
  end.


End JS.
Import JS.

(** ** HMAC-SHA256 as [crypto.createHmac('sha256', key)] computes it

    Bytes and 32-bit words are [Z]; every addition is reduced modulo 2^32. *)

Module Crypto.

Definition w32 (x : Z) : Z := x mod 2 ^ 32.

Definition add32 (x y : Z) : Z := w32 (x + y).

Definition rotr (n x : Z) : Z :=
  Z.lor (Z.shiftr x n) (w32 (Z.shiftl x (32 - n))).

Definition not32 (x : Z) : Z := Z.lxor x (2 ^ 32 - 1).

Definition ch (x y z : Z) : Z := Z.lxor (Z.land x y) (Z.land (not32 x) z).

Definition maj (x y z : Z) : Z :=
  Z.lxor (Z.lxor (Z.land x y) (Z.land x z)) (Z.land y z).

Definition bsig0 (x : Z) : Z :=
  Z.lxor (Z.lxor (rotr 2 x) (rotr 13 x)) (rotr 22 x).

Definition bsig1 (x : Z) : Z :=
  Z.lxor (Z.lxor (rotr 6 x) (rotr 11 x)) (rotr 25 x).

Definition ssig0 (x : Z) : Z :=
  Z.lxor (Z.lxor (rotr 7 x) (rotr 18 x)) (Z.shiftr x 3).

Definition ssig1 (x : Z) : Z :=
  Z.lxor (Z.lxor (rotr 17 x) (rotr 19 x)) (Z.shiftr x 10).

(** The round constants are the first 32 fractional bits of the cube roots
    of the first 64 primes, the initial state those of the square roots of
    the first 8; both are computed here rather than tabulated. *)
Definition primes : list Z :=
  [2; 3; 5; 7; 11; 13; 17; 19; 23; 29; 31; 37; 41; 43; 47; 53;
   59; 61; 67; 71; 73; 79; 83; 89; 97; 101; 103; 107; 109; 113; 127; 131;
   137; 139; 149; 151; 157; 163; 167; 173; 179; 181; 191; 193; 197; 199;
   211; 223; 227; 229; 233; 239; 241; 251; 257; 263; 269; 271; 277; 281;
   283; 293; 307; 311].

Fixpoint cube_root_bits (bits : nat) (n acc : Z) : Z :=
  match bits with
  | O => acc
  | S b =>
      let c := acc + 2 ^ Z.of_nat b in
      if c * c * c <=? n then cube_root_bits b n c else cube_root_bits b n acc
  end.

Definition cube_root_frac (p : Z) : Z :=
  w32 (cube_root_bits 36 (p * 2 ^ 96) 0).

Definition square_root_frac (p : Z) : Z := w32 (Z.sqrt (p * 2 ^ 64)).

Definition K : list Z := Eval vm_compute in map cube_root_frac primes.

Definition H0 : list Z :=
  Eval vm_compute in map square_root_frac (firstn 8 primes).

(** Padding: the byte 128, zero bytes up to 56 modulo 64, then the bit
    length as eight big-endian bytes. *)
Definition be_bytes (count : nat) (x : Z) : list Z :=
  map (fun i => Z.shiftr x (8 * Z.of_nat i) mod 256) (rev (seq 0 count)).

Definition pad (msg : list Z) : list Z :=
  let len := Z.of_nat (List.length msg) in
  let zeros := Z.to_nat ((55 - len) mod 64) in
  msg ++ [128] ++ repeat 0 zeros ++ be_bytes 8 (8 * len).

Fixpoint be_word (bytes : list Z) (acc : Z) : Z :=
  match bytes with
  | [] => acc
  | b :: rest => be_word rest (acc * 256 + b)
  end.

Fixpoint words (count : nat) (bytes : list Z) : list Z :=
  match count with
  | O => []
  | S c => be_word (firstn 4 bytes) 0 :: words c (skipn 4 bytes)
  end.

(** The message schedule, newest word first while it is built. *)
Fixpoint schedule (count : nat) (rev_w : list Z) : list Z :=
  match count with
  | O => rev rev_w
  | S c =>
      let w := add32 (add32 (ssig1 (nth 1 rev_w 0)) (nth 6 rev_w 0))
                     (add32 (ssig0 (nth 14 rev_w 0)) (nth 15 rev_w 0)) in
      schedule c (w :: rev_w)
  end.

Record state := mkState { sa : Z; sb : Z; sc : Z; sd : Z;
                          se : Z; sf : Z; sg : Z; sh : Z }.

Definition round (s : state) (kw : Z * Z) : state :=
  let t1 := add32 (add32 (add32 (sh s) (bsig1 (se s)))
                         (add32 (ch (se s) (sf s) (sg s)) (fst kw))) (snd kw) in
  let t2 := add32 (bsig0 (sa s)) (maj (sa s) (sb s) (sc s)) in
  mkState (add32 t1 t2) (sa s) (sb s) (sc s) (add32 (sd s) t1) (se s) (sf s) (sg s).

Definition compress (h : state) (block : list Z) : state :=
  let w := schedule 48 (rev (words 16 block)) in
  let r := fold_left round (combine K w) h in
  mkState (add32 (sa h) (sa r)) (add32 (sb h) (sb r))
          (add32 (sc h) (sc r)) (add32 (sd h) (sd r))
          (add32 (se h) (se r)) (add32 (sf h) (sf r))
          (add32 (sg h) (sg r)) (add32 (sh h) (sh r)).

Fixpoint blocks (count : nat) (h : state) (bytes : list Z) : state :=
  match count with
  | O => h
  | S c => blocks c (compress h (firstn 64 bytes)) (skipn 64 bytes)
  end.

Definition initial : state :=
  mkState (nth 0 H0 0) (nth 1 H0 0) (nth 2 H0 0) (nth 3 H0 0)
          (nth 4 H0 0) (nth 5 H0 0) (nth 6 H0 0) (nth 7 H0 0).

Definition sha256 (msg : list Z) : list Z :=
  let p := pad msg in
  let s := blocks (List.length p / 64) initial p in
  flat_map (be_bytes 4)
           [sa s; sb s; sc s; sd s; se s; sf s; sg s; sh s].

(** HMAC (RFC 2104) with a block of 64 bytes. *)
Definition hmac_sha256 (key msg : list Z) : list Z :=
  let k := if (64 <? List.length key)%nat then sha256 key else key in
  let k := k ++ repeat 0 (64 - List.length k) in
  sha256 (map (Z.lxor 92) k ++ sha256 (map (Z.lxor 54) k ++ msg)).

(** [digest('hex')]: two lowercase hexadecimal digits for every byte. *)
Definition hex_lower (n : Z) : ascii :=
  match String.get (Z.to_nat n) "0123456789abcdef" with
  | Some c => c
  | None => "0"%char
  end.

Fixpoint hex (bytes : list Z) : string :=
  match bytes with
  | [] => EmptyString
  | b :: rest =>
      String (hex_lower (b / 16)) (String (hex_lower (b mod 16)) (hex rest))
  end.

(** The bytes of a string handed to [createHmac] or [update]. *)
Definition bytes_of_string (s : string) : list Z := map Z.of_N (utf8 s).

End Crypto.

(** ** class BinanceAuth (src/routes/binance.js, lines 307 to 451; the
    routes load it as [../utils/binanceAuth]) *)

Module BinanceAuth.

(** [process.env]: a variable is a string or is not set. *)
Definition environment : Type := string -> option string.

Definition process_env (env : environment) (name : string) : value :=
  match env name with
  | Some s => VStr s
  | None => VUndefined
  end.

(** An instance; one exists only when the constructor returned, and then
    the three fields are strings. *)
Record t : Type := mk { apiKey : string; apiSecret : string; baseURL : string }.

(** The message of a thrown [Error]. *)
Definition Error : Type := string.

Definition constructor (env : environment) : Error + t :=
  let apiKey := process_env env "BINANCE_API_KEY" in
  let apiSecret := process_env env "BINANCE_API_SECRET" in
  let baseURL := or_else (process_env env "BINANCE_BASE_URL")
                         (VStr "https://api.binance.com") in
  if negb (truthy apiKey) || negb (truthy apiSecret)
  then inl "Binance API credentials not found in environment variables"
  else inr (mk (toString apiKey) (toString apiSecret) (toString baseURL)).

Definition generateSignature (this : t) (queryString : string) : string :=
  Crypto.hex (Crypto.hmac_sha256 (Crypto.bytes_of_string (apiSecret this))
                                 (Crypto.bytes_of_string queryString)).

(** The arrow function both query strings are mapped with:
    [key => `${key}=${encodeURIComponent(params[key])}`]. *)
Definition keyValue (params : obj) (key : string) : string :=
  key +++ "=" +++ encodeURIComponent (toString (get (VObj params) key)).

(** The [queryString] of [createSignedParams], over [params] as they are
    once the timestamp is in. *)
Definition signedQueryString (params : obj) : string :=
  join "&" (map (keyValue params) (sort (keys params))).

(** [createSignedParams(params)] at clock reading [now].  The assignment to
    [params.timestamp] changes the caller's object: the first component is
    that object after the call, the second the object returned. *)
Definition createSignedParams (this : t) (now : Z) (params : obj) : obj * obj :=
  let params := set params "timestamp" (VNum now) in
  let queryString := signedQueryString params in
  let signature := generateSignature this queryString in
  (params, set (spread params) "signature" (VStr signature)).

Definition getHeaders (this : t) : obj :=
  [("X-MBX-APIKEY", VStr (apiKey this));
   ("Content-Type", VStr "application/json");
   ("User-Agent", VStr "LockBay-Binance-Proxy/1.0.0")].

(** The argument of [axios]; [data] is [None] while the property is not
    set. *)
Record config : Type := mkConfig {
  method : string;
  url : string;
  headers : obj;
  timeout : Z;
  data : option obj
}.

(** What [await axios(config)] does: it yields a response object or throws
    an error object. *)
Inductive settled : Type :=
| Fulfilled (response : obj)
| Rejected (error : obj).

(** What [makeRequest] does: it returns an object or throws one. *)
Inductive outcome : Type :=
| Returned (result : obj)
| Thrown (error : obj).

(** [params] of [makeRequest] after [if (requiresSignature) ...]: the
    caller's object after that statement, and the local [params]. *)
Definition requestParams (this : t) (now : Z) (params : obj)
    (requiresSignature : bool) : obj * obj :=
  if requiresSignature then createSignedParams this now params
  else (params, params).

(** The [queryString] of [makeRequest]. *)
Definition urlQueryString (params : obj) : string :=
  join "&" (map (keyValue params) (keys params)).

(** [config] as it is handed to [axios], from the local [params]. *)
Definition buildConfig (this : t) (method endpoint : string) (params : obj)
    : config :=
  let url := baseURL this +++ endpoint in
  let config := mkConfig method url (getHeaders this) 30000 None in
  if (toLowerCase method =? "get")%string then
    if (0 <? List.length (keys params))%nat then
      let queryString := urlQueryString params in
      let url := url +++ "?" +++ queryString in
      mkConfig method url (headers config) (timeout config) (data config)
    else config
  else
    mkConfig method (BinanceAuth.url config) (headers config) (timeout config)
             (Some params).

(** The object thrown from the [catch] block. *)
Definition requestFailure (error : obj) : obj :=
  let response := get (VObj error) "response" in
  [("success", VBool false);
   ("error", or_else (opt_get response "data")
                     (VObj [("msg", get (VObj error) "message")]));
   ("status", or_else (opt_get response "status") (VNum 500));
   ("code", or_else (opt_get (opt_get response "data") "code")
                    (VStr "REQUEST_FAILED"))].

(** [makeRequest(method, endpoint, params, requiresSignature)] at clock
    reading [now] against the transport [axios]; the second component is the
    caller's [params] object after the call.  A caller that leaves out
    [params] or [requiresSignature] gets [{}] and [true]. *)
Definition makeRequest (this : t) (now : Z) (axios : config -> settled)
    (method endpoint : string) (params : obj) (requiresSignature : bool)
    : outcome * obj :=
  let (caller_params, params) := requestParams this now params requiresSignature in
  let config := buildConfig this method endpoint params in
  match axios config with
  | Fulfilled response =>
      (Returned [("success", VBool true);
                 ("data", get (VObj response) "data");
                 ("status", get (VObj response) "status")],
       caller_params)
  | Rejected error => (Thrown (requestFailure error), caller_params)
  end.

(** What the [catch] block of [testCredentials] returns for the caught
    [error]. *)
Definition credentialsFailure (error : value) : obj :=
  [("valid", VBool false);
   ("error", or_else (opt_get (get error "error") "msg")
                     (VStr "Invalid credentials"))].

(** [testCredentials()].  Reading [result.data.accountType] throws a
    TypeError inside [try] when [result.data] is [undefined] or [null]; the
    [catch] block then sees an [Error], which has a [message] and no
    [error]. *)
Definition testCredentials (this : t) (now : Z) (axios : config -> settled)
    : obj :=
  match fst (makeRequest this now axios "GET" "/api/v3/account" [] true) with
  | Returned result =>
      let data := get (VObj result) "data" in
      if nullish data
      then credentialsFailure
             (VObj [("message", VStr "Cannot read properties of undefined")])
      else [("valid", VBool true);
            ("accountType", get data "accountType");
            ("permissions", get data "permissions")]
  | Thrown error => credentialsFailure (VObj error)
  end.

(** [getServerTime()]: the data it returns, or the object it throws again. *)
Definition getServerTime (this : t) (now : Z) (axios : config -> settled)
    : value + obj :=
  match fst (makeRequest this now axios "GET" "/api/v3/time" [] false) with
  | Returned result => inl (get (VObj result) "data")
  | Thrown error => inr error
  end.

End BinanceAuth.

(** ** The error middleware (src/unnamed/part_000; src/index.js loads it as
    [./middleware/errorHandler]) *)

Module Middleware.

Import BinanceAuth.

(** [res.status(s).json(b)]: the status and the object handed to [json]
    (a property that is [undefined] there is left out of the JSON text). *)
Record reply : Type := mkReply { status : value; body : obj }.

(** [v === 'literal'] *)
Definition is_string (v : value) (literal : string) : bool :=
  match v with
  | VStr s => (s =? literal)%string
  | _ => false
  end.

(** [errorHandler(err, req, res, next)] with [iso] the reading of
    [new Date().toISOString()].  Reading [err.message] for the log line
    throws a TypeError when [err] is [undefined] or [null]: [None]. *)
Definition errorHandler (env : environment) (iso : string) (err : value)
    : option reply :=
  if nullish err then None
  else if truthy (and_then (get err "response")
                           (get (get err "response") "data"))
  then Some (mkReply
         (or_else (get (get err "response") "status") (VNum 500))
         [("error", VStr "Binance API Error");
          ("message", or_else (get (get (get err "response") "data") "msg")
                              (get err "message"));
          ("code", or_else (get (get (get err "response") "data") "code")
                           (VStr "UNKNOWN_ERROR"));
          ("timestamp", VStr iso)])
  else if is_string (get err "code") "ECONNREFUSED"
          || is_string (get err "code") "ENOTFOUND"
  then Some (mkReply (VNum 503)
         [("error", VStr "Service Unavailable");
          ("message", VStr "Unable to connect to Binance API");
          ("code", VStr "CONNECTION_ERROR");
          ("timestamp", VStr iso)])
  else Some (mkReply
         (or_else (get err "status") (VNum 500))
         [("error", VStr "Internal Server Error");
          ("message", if is_string (process_env env "NODE_ENV") "production"
                      then VStr "Something went wrong"
                      else get err "message");
          ("timestamp", VStr iso)]).

End Middleware.

(** ** The routes (src/routes/binance.js, lines 1 to 303), mounted by the
    application (lines 454 to 571) with [errorHandler] as its only error
    middleware *)

Module Routes.

Import BinanceAuth Middleware.

(** [GET /api/v3/account]: [makeRequest('GET', '/api/v3/account')] inside
    [try]; [catch (error) { next(error) }] hands the thrown object to
    [errorHandler]. *)
Definition account (binance : t) (env : environment) (now : Z) (iso : string)
    (axios : config -> settled) : option reply :=
  match fst (makeRequest binance now axios "GET" "/api/v3/account" [] true) with
  | Returned result =>
      Some (mkReply (VNum 200)
             [("success", VBool true);
              ("data", get (VObj result) "data");
              ("timestamp", VStr iso)])
  | Thrown error => errorHandler env iso (VObj error)
  end.

(** The shape every forwarding handler has once its [params] are built:
    [makeRequest] inside [try], 200 with the data, [next(error)] from
    [catch]. *)
Definition forward (binance : t) (env : environment) (now : Z) (iso : string)
    (axios : config -> settled) (method endpoint : string) (params : obj)
    (requiresSignature : bool) : option reply :=
  match fst (makeRequest binance now axios method endpoint params
               requiresSignature) with
  | Returned result =>
      Some (mkReply (VNum 200)
             [("success", VBool true);
              ("data", get (VObj result) "data");
              ("timestamp", VStr iso)])
  | Thrown error => errorHandler env iso (VObj error)
  end.

(** [req.query], for requests whose query parameters are strings (a
    repeated or bracketed parameter, which the parser turns into an array or
    an object, is outside). *)
Definition query : Type := string -> option string.

Definition req_query (q : query) (name : string) : value :=
  match q name with
  | Some s => VStr s
  | None => VUndefined
  end.

(** [GET /api/v3/ticker/price] and [GET /api/v3/exchangeInfo]:
    [symbol ? { symbol: symbol.toUpperCase() } : {}]. *)
Definition symbolParams (q : query) : option obj :=
  match q "symbol" with
  | Some symbol =>
      if truthy (VStr symbol)
      then match toUpperCase symbol with
           | Some upper => Some [("symbol", VStr upper)]
           | None => None
           end
      else Some []
  | None => Some []
  end.

(** The body of the [forEach] of the two history handlers: a parameter
    that is truthy in the query goes into [params], [coin] in capitals. *)
Definition collectStep (q : query) (acc : option obj) (param : string)
    : option obj :=
  match acc with
  | None => None
  | Some params =>
      if truthy (req_query q param) then
        if (param =? "coin")%string then
          match toUpperCase (toString (req_query q param)) with
          | Some upper => Some (set params param (VStr upper))
          | None => None
          end
        else Some (set params param (req_query q param))
      else Some params
  end.

Definition collectParams (names : list string) (q : query) : option obj :=
  fold_left (collectStep q) names (Some []).

(** [GET /sapi/v1/capital/withdraw/history] *)
Definition withdrawHistoryParams (q : query) : option obj :=
  collectParams
    ["coin"; "withdrawOrderId"; "status"; "startTime"; "endTime"; "offset";
     "limit"] q.

(** [GET /sapi/v1/capital/deposit/hisrec] *)
Definition depositHistoryParams (q : query) : option obj :=
  collectParams ["coin"; "status"; "startTime"; "endTime"; "offset"; "limit"] q.

(** [GET /sapi/v1/capital/deposit/address], whose validators let the
    handler run only with a [coin] that is a string. *)
Definition depositAddressParams (coin : string) (network : option string)
    : option obj :=
  match toUpperCase coin with
  | None => None
  | Some upperCoin =>
      let params := [("coin", VStr upperCoin)] in
      match network with
      | Some n =>
          if truthy (VStr n)
          then match toUpperCase n with
               | Some upper => Some (set params "network" (VStr upper))
               | None => None
               end
          else Some params
      | None => Some params
      end
  end.


(** [POST /test-credentials]; [testCredentials] returns in every case, so
    the [catch] of the handler is never entered. *)
Definition testCredentialsRoute (binance : t) (now : Z) (iso : string)
    (axios : config -> settled) : reply :=
  let result := VObj (testCredentials binance now axios) in
  if truthy (get result "valid")
  then mkReply (VNum 200)
         [("success", VBool true);
          ("message", VStr "Credentials are valid");
          ("data", VObj [("accountType", get result "accountType");
                         ("permissions", get result "permissions")]);
          ("timestamp", VStr iso)]
  else mkReply (VNum 401)
         [("success", VBool false);
          ("message", VStr "Invalid credentials");
          ("error", get result "error");
          ("timestamp", VStr iso)].

End Routes.

(** ** The application (src/routes/binance.js, lines 454 to 571) *)

Module Application.

Import BinanceAuth.

Definition requiredVars : list string :=
  ["BINANCE_API_KEY"; "BINANCE_API_SECRET"].

(** [requiredVars.filter(varName => !process.env[varName])] *)
Definition missingVars (env : environment) : list string :=
  filter (fun varName => negb (truthy (process_env env varName))) requiredVars.

(** Loading the application loads the routes, whose first statements
    construct the one [BinanceAuth]; a throw there ends the process before
    [listen].  Otherwise the [listen] callback computes [missingVars] and
    logs an error when the list is not empty. *)
Inductive started : Type :=
| Crashed (error : Error)
| Listening (missing : list string).

Definition start (env : environment) : started :=
  match constructor env with
  | inl error => Crashed error
  | inr _ => Listening (missingVars env)
  end.

End Application.

Import BinanceAuth Middleware.

(** ** The vocabulary of the specification *)

(** Ascending by code unit, the order of [sort]. *)
Definition byte_le (a b : string) : Prop := (a <=? b)%string = true.

Fixpoint all_chars (p : ascii -> bool) (s : string) : bool :=
  match s with
  | EmptyString => true
  | String c rest => p c && all_chars p rest
  end.

Definition lower_hex (s : string) : bool :=
  all_chars (fun c => mem_char c "0123456789abcdef") s.

(** The canonical string in the specification's words: some arrangement of
    the keys of [m] that ascends byte-wise, each key rendered as
    [key=urlEncode(value)], the renderings joined by [&]. *)
Definition canonical (m : obj) (s : string) : Prop :=
  exists ks : list string,
    Permutation ks (keys m) /\
    StronglySorted byte_le ks /\
    s = String.concat "&"
          (map (fun k => k +++ "=" +++ encodeURIComponent (toString (get (VObj m) k)))
               ks).

(** A key with no [&] and no [=] in it. *)
Definition key_plain (k : string) : bool :=
  negb (mem_char "&" k) && negb (mem_char "=" k).

(** How often a character stands in a string. *)
Fixpoint count_char (c : ascii) (s : string) : nat :=
  match s with
  | EmptyString => O
  | String d rest => ((if (c =? d)%char then 1 else 0) + count_char c rest)%nat
  end.

(** ** Concrete inputs the checks and instances below are run on *)

Module Fixtures.

Definition client : t := mk "K" "S" "https://api.binance.com".

Definition noEnvironment : environment := fun _ => None.

Definition production : environment :=
  fun name => if (name =? "NODE_ENV")%string then Some "production" else None.

Definition onlyKey : environment :=
  fun name => if (name =? "BINANCE_API_KEY")%string then Some "K" else None.

Definition iso : string := "2024-01-01T00:00:00.000Z".

(** Errors as the transport raises them: no [response] on the first three. *)
Definition refused : obj :=
  [("message", VStr "connect ECONNREFUSED 127.0.0.1:443");
   ("code", VStr "ECONNREFUSED")].

Definition timedOut : obj :=
  [("message", VStr "timeout of 30000ms exceeded");
   ("code", VStr "ECONNABORTED")].

Definition hungUp : obj :=
  [("message", VStr "socket hang up"); ("code", VStr "ECONNRESET")].

Definition upstream (status : Z) (data : obj) : obj :=
  [("message", VStr "Request failed");
   ("response", VObj [("status", VNum status); ("data", VObj data)])].

Definition recvWindow : obj :=
  [("code", VNum (-1021)); ("msg", VStr "Timestamp outside recvWindow")].

(** Queries of a history request: a time range, and an order id. *)
Definition timeRange : string -> option string :=
  fun name => if (name =? "endTime")%string then Some "1700003600000"
              else if (name =? "startTime")%string then Some "1700000000000"
              else None.

Definition byOrderId : string -> option string :=
  fun name => if (name =? "withdrawOrderId")%string then Some "w1" else None.

End Fixtures.
Import Fixtures.

(** * Checks of the embedding on concrete inputs *)

Example toString_num : toString (VNum (-1021)) = "-1021".
Proof. reflexivity. Qed.

Example encode_sample :
  encodeURIComponent "a b&c=d/e~(f)" = "a%20b%26c%3Dd%2Fe~(f)".
Proof. reflexivity. Qed.

Example encode_latin1 :
  encodeURIComponent (String (ascii_of_N 233) "") = "%C3%A9".
Proof. reflexivity. Qed.

Example set_order :
  keys (set (set (set [] "b" (VNum 1)) "10" (VNum 2)) "9" (VNum 3))
  = ["9"; "10"; "b"].
Proof. reflexivity. Qed.

Example array_index_samples :
  map array_index ["0"; "01"; "42"; "4294967294"; "4294967295"; "1e3"; ""]
  = [Some 0%N; None; Some 42%N; Some 4294967294%N; None; None; None].
Proof. reflexivity. Qed.

Example sort_sample :
  sort ["timestamp"; "coin"; "Zeta"; "a=1&a"; "a"; "10"; "9"]
  = ["10"; "9"; "Zeta"; "a"; "a=1&a"; "coin"; "timestamp"].
Proof. reflexivity. Qed.

Example sha256_abc :
  Crypto.hex (Crypto.sha256 (Crypto.bytes_of_string "abc"))
  = "ba7816bf8f01cfea414140de5dae2223b00361a396177a9cb410ff61f20015ad".
Proof. vm_compute. reflexivity. Qed.

Example sha256_two_blocks :
  Crypto.hex (Crypto.sha256 (Crypto.bytes_of_string
    "abcdbcdecdefdefgefghfghighijhijkijkljklmklmnlmnomnopnopq"))
  = "248d6a61d20638b8e5c026930c3e6039a33ce45964ff2167f6ecedd419db06c1".
Proof. vm_compute. reflexivity. Qed.

Example hmac_sha256_fox :
  Crypto.hex (Crypto.hmac_sha256 (Crypto.bytes_of_string "key")
    (Crypto.bytes_of_string "The quick brown fox jumps over the lazy dog"))
  = "f7bc83f430538424b13298e6aa6fb143ef4d59a14946175997479dbc2d1a3cd8".
Proof. vm_compute. reflexivity. Qed.

(** A key longer than one block, and a code unit above 127 in the message. *)
Example hmac_sha256_long_key :
  Crypto.hex (Crypto.hmac_sha256
    (Crypto.bytes_of_string
       "kkkkkkkkkkkkkkkkkkkkkkkkkkkkkkkkkkkkkkkkkkkkkkkkkkkkkkkkkkkkkkkkkkkkkk")
    (Crypto.bytes_of_string ("caf" +++ String (ascii_of_N 233) "")))
  = "47e3deb898270fd0d405dfc280c25eff2465dcbbf42f0f7c0c82b35b505ec923".
Proof. vm_compute. reflexivity. Qed.

(** The specification's two end-to-end scenarios. *)
Example signed_account_request :
  signedQueryString (fst (requestParams client 1000 [] true)) = "timestamp=1000" /\
  url (buildConfig client "GET" "/account"
         (snd (requestParams client 1000 [] true)))
  = "https://api.binance.com/account?timestamp=1000&signature=" +++
    generateSignature client "timestamp=1000".
Proof. split; vm_compute; reflexivity. Qed.

Example unsigned_ticker_request :
  url (buildConfig client "GET" "/ticker/price"
         (snd (requestParams client 1000 [("symbol", VStr "BTCUSDT")] false)))
  = "https://api.binance.com/ticker/price?symbol=BTCUSDT".
Proof. reflexivity. Qed.

Example toUpperCase_samples :
  toUpperCase "btcusdt" = Some "BTCUSDT" /\
  toUpperCase ("stra" +++ String (ascii_of_N 223) "e") = Some "STRASSE" /\
  toUpperCase (String (ascii_of_N 233) "") = Some (String (ascii_of_N 201) "") /\
  toUpperCase (String (ascii_of_N 181) "") = None.
Proof. repeat split; reflexivity. Qed.

Example history_params_sample :
  Routes.withdrawHistoryParams
    (fun name => if (name =? "limit")%string then Some "10"
                 else if (name =? "coin")%string then Some "btc"
                 else if (name =? "status")%string then Some ""
                 else None)
  = Some [("coin", VStr "BTC"); ("limit", VStr "10")].
Proof. reflexivity. Qed.

(** * Properties *)

(** ** The code-unit order and [sort] *)

Section Sorting.

Lemma ascii_compare_N (a b : ascii) :
  (a ?= b)%char = (N_of_ascii a ?= N_of_ascii b)%N.
Proof. reflexivity. Qed.

Lemma compare_lt_trans (s1 s2 s3 : string) :
  (s1 ?= s2)%string = Lt -> (s2 ?= s3)%string = Lt -> (s1 ?= s3)%string = Lt.
Proof.
  revert s2 s3; induction s1 as [|a s1 IH]; intros [|b s2] [|c s3];
    simpl; try congruence.
  rewrite !ascii_compare_N.
  destruct (N.compare_spec (N_of_ascii a) (N_of_ascii b)) as [E1|L1|G1];
    destruct (N.compare_spec (N_of_ascii b) (N_of_ascii c)) as [E2|L2|G2];
    try congruence; intros H1 H2.
  - rewrite E1, E2, N.compare_refl. eauto.
  - rewrite E1. apply N.compare_lt_iff in L2. now rewrite L2.
  - rewrite <- E2. apply N.compare_lt_iff in L1. now rewrite L1.
  - assert (N_of_ascii a < N_of_ascii c)%N as L by lia.
    apply N.compare_lt_iff in L. now rewrite L.
Qed.

Lemma byte_le_trans (a b c : string) : byte_le a b -> byte_le b c -> byte_le a c.
Proof.
  unfold byte_le, String.leb. intros H1 H2.
  destruct (a ?= b)%string eqn:E1; try discriminate;
    destruct (b ?= c)%string eqn:E2; try discriminate.
  - apply String.compare_eq_iff in E1; subst. now rewrite E2.
  - apply String.compare_eq_iff in E1; subst. now rewrite E2.
  - apply String.compare_eq_iff in E2; subst. now rewrite E1.
  - now rewrite (compare_lt_trans _ _ _ E1 E2).
Qed.

Lemma insert_sorted_perm (k : string) (l : list string) :
  Permutation (insert_sorted k l) (k :: l).
Proof.
  induction l as [|a l IH]; simpl; [reflexivity|].
  destruct (k <=? a)%string; [reflexivity|].
  rewrite IH. apply perm_swap.
Qed.

Lemma sort_perm (l : list string) : Permutation (sort l) l.
Proof.
  induction l as [|a l IH]; simpl; [constructor|].
  rewrite insert_sorted_perm. now constructor.
Qed.

Lemma insert_sorted_sorted (k : string) (l : list string) :
  StronglySorted byte_le l -> StronglySorted byte_le (insert_sorted k l).
Proof.
  induction 1 as [|a l S IH F]; simpl.
  - repeat constructor.
  - destruct (k <=? a)%string eqn:E.
    + constructor; [now constructor|].
      constructor; [exact E|].
      eapply Forall_impl; [|exact F]. intros b Hb.
      eapply byte_le_trans; eauto.
    + constructor; [exact IH|].
      eapply Permutation_Forall; [symmetry; apply insert_sorted_perm|].
      constructor; [|exact F].
      destruct (String.leb_total k a) as [H|H]; [congruence|exact H].
Qed.

Lemma sort_sorted (l : list string) : StronglySorted byte_le (sort l).
Proof.
  induction l; simpl; [constructor|now apply insert_sorted_sorted].
Qed.

(** A list has one ascending arrangement. *)
Lemma sorted_perm_unique (l1 l2 : list string) :
  StronglySorted byte_le l1 -> StronglySorted byte_le l2 ->
  Permutation l1 l2 -> l1 = l2.
Proof.
  intros S1; revert l2.
  induction S1 as [|a l1 S1 IH F1]; intros l2 S2 P.
  - apply Permutation_nil in P. now subst.
  - destruct S2 as [|b l2 S2 F2].
    + symmetry in P. now apply Permutation_nil in P.
    + assert (a = b) as ->.
      { assert (In a (b :: l2)) as Ia
          by (eapply Permutation_in; [exact P|now left]).
        assert (In b (a :: l1)) as Ib
          by (eapply Permutation_in; [symmetry; exact P|now left]).
        rewrite Forall_forall in F1, F2.
        destruct Ia as [->|Ia]; [reflexivity|].
        destruct Ib as [->|Ib]; [reflexivity|].
        apply String.leb_antisym; [apply F1, Ib|apply F2, Ia]. }
      f_equal. apply IH; [exact S2|].
      eapply Permutation_cons_inv; exact P.
Qed.

Lemma sort_unique (l ks : list string) :
  Permutation ks l -> StronglySorted byte_le ks -> ks = sort l.
Proof.
  intros P S. apply sorted_perm_unique; [exact S|apply sort_sorted|].
  rewrite P. symmetry. apply sort_perm.
Qed.

End Sorting.

(** ** Own properties: [lookup], [set], [spread] *)

Section Objects.

Lemma lookup_None_keys (o : obj) (k : string) :
  lookup k o = None <-> ~ In k (keys o).
Proof.
  induction o as [|[k' v'] o IH]; simpl; [tauto|].
  destruct (String.eqb_spec k k') as [->|N].
  - split; [discriminate|]. intros H. exfalso. apply H. now left.
  - rewrite IH. split; [intros H [E|I]; [congruence|tauto]|tauto].
Qed.

Lemma lookup_Some_keys (o : obj) (k : string) (v : value) :
  lookup k o = Some v -> In k (keys o).
Proof.
  intros H. destruct (in_dec string_dec k (keys o)) as [I|I]; [exact I|].
  apply lookup_None_keys in I. congruence.
Qed.

Lemma lookup_app (o1 o2 : obj) (k : string) :
  lookup k (o1 ++ o2)
  = match lookup k o1 with Some v => Some v | None => lookup k o2 end.
Proof.
  induction o1 as [|[k' v'] o1 IH]; simpl; [reflexivity|].
  now destruct (k =? k')%string.
Qed.

Lemma keys_update (k : string) (v : value) (o : obj) :
  keys (update k v o) = keys o.
Proof.
  induction o as [|[k' v'] o IH]; simpl; [reflexivity|].
  destruct (k =? k')%string; simpl; [reflexivity|now rewrite IH].
Qed.

Lemma lookup_update_same (k : string) (v : value) (o : obj) :
  In k (keys o) -> lookup k (update k v o) = Some v.
Proof.
  induction o as [|[k' v'] o IH]; simpl; [tauto|].
  intros H. destruct (String.eqb_spec k k') as [->|N]; simpl.
  - now rewrite String.eqb_refl.
  - apply String.eqb_neq in N. rewrite N. apply IH.
    destruct H as [E|I]; [|exact I]. apply String.eqb_neq in N. congruence.
Qed.

Lemma lookup_update_other (k k' : string) (v : value) (o : obj) :
  k' <> k -> lookup k' (update k v o) = lookup k' o.
Proof.
  intros N. induction o as [|[k0 v0] o IH]; simpl; [reflexivity|].
  destruct (String.eqb_spec k k0) as [->|N0]; simpl.
  - apply String.eqb_neq in N. now rewrite N.
  - now rewrite IH.
Qed.

Lemma lookup_insert_index_same (n : N) (k : string) (v : value) (o : obj) :
  ~ In k (keys o) -> lookup k (insert_index n k v o) = Some v.
Proof.
  induction o as [|[k' v'] o IH]; simpl; intros H.
  - now rewrite String.eqb_refl.
  - destruct (array_index k') as [m|]; [destruct (n <? m)%N|]; simpl;
      rewrite ?String.eqb_refl; try reflexivity.
    destruct (String.eqb_spec k k') as [->|N]; [tauto|]. apply IH. tauto.
Qed.

Lemma lookup_insert_index_other (n : N) (k k' : string) (v : value) (o : obj) :
  k' <> k -> lookup k' (insert_index n k v o) = lookup k' o.
Proof.
  intros N. apply String.eqb_neq in N.
  induction o as [|[k0 v0] o IH]; simpl.
  - now rewrite N.
  - destruct (array_index k0) as [m|]; [destruct (n <? m)%N|]; simpl;
      rewrite ?N; try reflexivity.
    now rewrite IH.
Qed.

Lemma lookup_set_same (o : obj) (k : string) (v : value) :
  lookup k (set o k v) = Some v.
Proof.
  unfold set. destruct (lookup k o) eqn:E.
  - apply lookup_update_same. eapply lookup_Some_keys; eauto.
  - destruct (array_index k).
    + apply lookup_insert_index_same. now apply lookup_None_keys.
    + rewrite lookup_app, E. simpl. now rewrite String.eqb_refl.
Qed.

Lemma lookup_set_other (o : obj) (k k' : string) (v : value) :
  k' <> k -> lookup k' (set o k v) = lookup k' o.
Proof.
  intros N. unfold set. destruct (lookup k o) eqn:E.
  - now apply lookup_update_other.
  - destruct (array_index k).
    + now apply lookup_insert_index_other.
    + rewrite lookup_app. simpl. apply String.eqb_neq in N. rewrite N.
      now destruct (lookup k' o).
Qed.

Lemma in_keys_lookup (o : obj) (k : string) :
  In k (keys o) <-> lookup k o <> None.
Proof.
  destruct (lookup k o) eqn:E.
  - split; [discriminate|]. intros _. eapply lookup_Some_keys; eauto.
  - apply lookup_None_keys in E. tauto.
Qed.

Lemma in_keys_set (o : obj) (k k' : string) (v : value) :
  In k' (keys (set o k v)) <-> k' = k \/ In k' (keys o).
Proof.
  rewrite !in_keys_lookup.
  destruct (string_dec k' k) as [->|N].
  - rewrite lookup_set_same. split; [now left|discriminate].
  - rewrite lookup_set_other by exact N. tauto.
Qed.

(** A key that is no array index and not there yet goes last; a key that
    is there keeps its place. *)
Lemma set_fresh (o : obj) (k : string) (v : value) :
  ~ In k (keys o) -> array_index k = None -> set o k v = o ++ [(k, v)].
Proof.
  intros H A. apply lookup_None_keys in H. unfold set. now rewrite H, A.
Qed.

Lemma keys_set_present (o : obj) (k : string) (v : value) :
  In k (keys o) -> keys (set o k v) = keys o.
Proof.
  intros H. apply in_keys_lookup in H. unfold set.
  destruct (lookup k o); [apply keys_update|congruence].
Qed.

Lemma wf_keys_app (l1 l2 : list string) :
  wf_keys (l1 ++ l2) = true <->
  wf_keys l1 = true /\ wf_keys l2 = true /\
  (forall a b, In a l1 -> In b l2 -> own_before a b = true).
Proof.
  induction l1 as [|a l1 IH]; simpl.
  - intuition.
  - rewrite !andb_true_iff, forallb_app, andb_true_iff, IH, !forallb_forall.
    split.
    + intros [[H1 H2] [H3 [H4 H5]]]. repeat split; auto.
      intros x y [->|I] J; auto.
    + intros [[H1 H2] [H3 H4]]. repeat split; auto.
Qed.

Lemma wf_set_named (o : obj) (k : string) (v : value) :
  array_index k = None -> wf o = true -> wf (set o k v) = true.
Proof.
  intros A W. unfold wf in *.
  destruct (in_dec string_dec k (keys o)) as [I|I].
  - now rewrite keys_set_present.
  - rewrite set_fresh by assumption. unfold keys. rewrite map_app.
    apply wf_keys_app. repeat split; auto.
    intros a b Ia [<-|[]]. unfold own_before. simpl. rewrite A, andb_true_r.
    apply negb_true_iff, String.eqb_neq. intros ->. exact (I Ia).
Qed.

Lemma insert_index_last (n : N) (k : string) (v : value) (o : obj) :
  (forall a, In a (keys o) -> own_before a k = true) ->
  array_index k = Some n -> insert_index n k v o = o ++ [(k, v)].
Proof.
  intros H A. induction o as [|[k' v'] o IH]; simpl; [reflexivity|].
  assert (own_before k' k = true) as B by (apply H; now left).
  unfold own_before in B. rewrite A in B.
  apply andb_true_iff in B. destruct B as [_ B].
  destruct (array_index k') as [m|]; [|discriminate].
  apply N.ltb_lt in B.
  destruct (N.ltb_spec n m); [lia|].
  f_equal. apply IH. intros a Ia. apply H. now right.
Qed.

Lemma spread_from (l acc : obj) :
  wf (acc ++ l) = true ->
  fold_left (fun a kv => set a (fst kv) (snd kv)) l acc = acc ++ l.
Proof.
  revert acc. induction l as [|[k v] l IH]; intros acc W; simpl.
  - now rewrite app_nil_r.
  - assert (set acc k v = acc ++ [(k, v)]) as E.
    { unfold wf, keys in W. rewrite map_app in W. apply wf_keys_app in W.
      destruct W as [_ [_ W]].
      assert (forall a, In a (keys acc) -> own_before a k = true) as B
        by (intros a Ia; apply W; [exact Ia|now left]).
      assert (~ In k (keys acc)) as F.
      { intros I. specialize (B k I). unfold own_before in B.
        now rewrite String.eqb_refl in B. }
      unfold set. apply lookup_None_keys in F. rewrite F.
      destruct (array_index k) eqn:A; [|reflexivity].
      now apply insert_index_last. }
    rewrite E, IH; rewrite <- app_assoc; [reflexivity|exact W].
Qed.

(** Copying a well-formed object gives the same object. *)
Lemma spread_wf (o : obj) : wf o = true -> spread o = o.
Proof. intros W. unfold spread. now rewrite spread_from. Qed.

End Objects.

(** ** The digest is 64 lowercase hexadecimal digits *)

Section Digest.

Lemma hex_lower_digit (n : Z) :
  0 <= n < 16 -> mem_char (Crypto.hex_lower n) "0123456789abcdef" = true.
Proof.
  intros H. rewrite <- (Z2Nat.id n) by lia.
  assert (Z.to_nat n < 16)%nat as B by lia.
  revert B. generalize (Z.to_nat n). intros k B.
  do 16 (destruct k as [|k]; [reflexivity|]). lia.
Qed.

Lemma hex_lower_hex (bytes : list Z) :
  Forall (fun b => 0 <= b < 256) bytes -> lower_hex (Crypto.hex bytes) = true.
Proof.
  induction 1 as [|b bytes Hb _ IH]; [reflexivity|].
  unfold lower_hex in *. cbn [Crypto.hex all_chars].
  rewrite !hex_lower_digit, IH; [reflexivity| |].
  - apply Z.mod_pos_bound. lia.
  - split; [apply Z.div_pos; lia|apply Z.div_lt_upper_bound; lia].
Qed.

Lemma hex_length (bytes : list Z) :
  String.length (Crypto.hex bytes) = (2 * List.length bytes)%nat.
Proof. induction bytes; simpl; [reflexivity|]. rewrite IHbytes. lia. Qed.

Lemma be_bytes_range (count : nat) (x : Z) :
  Forall (fun b => 0 <= b < 256) (Crypto.be_bytes count x).
Proof.
  unfold Crypto.be_bytes. apply Forall_map, Forall_forall.
  intros i _. apply Z.mod_pos_bound. lia.
Qed.

Lemma sha256_range (msg : list Z) :
  Forall (fun b => 0 <= b < 256) (Crypto.sha256 msg).
Proof.
  unfold Crypto.sha256. apply Forall_flat_map, Forall_forall.
  intros x _. apply be_bytes_range.
Qed.

Lemma sha256_length (msg : list Z) : List.length (Crypto.sha256 msg) = 32%nat.
Proof.
  unfold Crypto.sha256.
  generalize (Crypto.blocks (List.length (Crypto.pad msg) / 64)
                            Crypto.initial (Crypto.pad msg)).
  intros s. reflexivity.
Qed.

Lemma generateSignature_lower_hex (this : t) (queryString : string) :
  lower_hex (generateSignature this queryString) = true /\
  String.length (generateSignature this queryString) = 64%nat.
Proof.
  unfold generateSignature, Crypto.hmac_sha256. split.
  - apply hex_lower_hex, sha256_range.
  - now rewrite hex_length, sha256_length.
Qed.

End Digest.

(** ** The signed string *)

Lemma signedQueryString_canonical (m : obj) : canonical m (signedQueryString m).
Proof.
  exists (sort (keys m)). split; [apply sort_perm|].
  split; [apply sort_sorted|reflexivity].
Qed.

Lemma canonical_unique (m : obj) (s : string) :
  canonical m s -> s = signedQueryString m.
Proof.
  intros [ks [P [S ->]]]. now rewrite (sort_unique _ _ P S).
Qed.

(** C1.  For every instance (so every secret), clock reading and parameter
    mapping: the mapping that is signed is the caller's with [timestamp] set
    to the clock reading and nothing else changed; the signed string is the
    one canonical string of that mapping (keys in ascending byte order, each
    as [key=encodeURIComponent(value)], joined by [&]); and the [signature]
    of the returned mapping is the hexadecimal HMAC-SHA256 of that string
    keyed by the secret, 64 digits, all lowercase. *)
Theorem C1_signature_of_canonical_string (this : t) (now : Z) (params : obj) :
  let withTimestamp := fst (createSignedParams this now params) in
  let queryString := signedQueryString withTimestamp in
  let signature := Crypto.hex (Crypto.hmac_sha256
                                 (Crypto.bytes_of_string (apiSecret this))
                                 (Crypto.bytes_of_string queryString)) in
  (lookup "timestamp" withTimestamp = Some (VNum now) /\
   (forall k, k <> "timestamp" -> lookup k withTimestamp = lookup k params) /\
   (forall k, In k (keys withTimestamp) <-> k = "timestamp" \/ In k (keys params))) /\
  (canonical withTimestamp queryString /\
   forall s, canonical withTimestamp s -> s = queryString) /\
  lookup "signature" (snd (createSignedParams this now params))
    = Some (VStr signature) /\
  lower_hex signature = true /\ String.length signature = 64%nat.
Proof.
  cbv zeta. unfold createSignedParams. simpl fst. simpl snd.
  split; [split; [|split]|split; [split|split]].
  - apply lookup_set_same.
  - intros k N. now apply lookup_set_other.
  - intros k. apply in_keys_set.
  - apply signedQueryString_canonical.
  - apply canonical_unique.
  - apply lookup_set_same.
  - apply (generateSignature_lower_hex this).
Qed.

(** ** The order of signing *)

(** On a well-formed mapping without a [signature] of its own, the object
    returned is the caller's mapping with the timestamp set, and the
    signature appended. *)
Lemma createSignedParams_appends (this : t) (now : Z) (params : obj) :
  wf params = true ->
  ~ In "signature" (keys params) ->
  createSignedParams this now params
  = (set params "timestamp" (VNum now),
     set params "timestamp" (VNum now)
     ++ [("signature",
          VStr (generateSignature this
                  (signedQueryString (set params "timestamp" (VNum now)))))]).
Proof.
  intros W F. unfold createSignedParams. f_equal.
  rewrite spread_wf by (apply wf_set_named; [reflexivity|exact W]).
  apply set_fresh; [|reflexivity].
  rewrite in_keys_set. intros [D|I]; [discriminate|tauto].
Qed.

(** C2, as stated, fails: a [signature] entry the caller passes in is part
    of the mapping that is signed and of the signed string. *)
Lemma C2_caller_signature_is_signed :
  wf [("signature", VStr "x")] = true /\
  fst (createSignedParams client 1000 [("signature", VStr "x")])
    = [("signature", VStr "x"); ("timestamp", VNum 1000)] /\
  In "signature"
     (keys (fst (createSignedParams client 1000 [("signature", VStr "x")]))) /\
  signedQueryString (fst (createSignedParams client 1000 [("signature", VStr "x")]))
    = "signature=x&timestamp=1000".
Proof. repeat split; try reflexivity. simpl. now left. Qed.

(** C2, amended.  For every signed call whose parameters (well-formed, as
    the own keys of every object are) hold no [signature] entry of the
    caller's: the timestamp goes into the caller's
    mapping first; the signed string is the canonical string of exactly that
    mapping, which has no [signature] key; the mapping sent on is that
    mapping with [signature] appended last, computed from that string; and
    this is what [makeRequest] uses when [requiresSignature] is true. *)
Theorem C2_timestamp_then_sign_then_append (this : t) (now : Z) (params : obj) :
  wf params = true ->
  ~ In "signature" (keys params) ->
  let withTimestamp := set params "timestamp" (VNum now) in
  let signature := generateSignature this (signedQueryString withTimestamp) in
  createSignedParams this now params
    = (withTimestamp, withTimestamp ++ [("signature", VStr signature)]) /\
  canonical withTimestamp (signedQueryString withTimestamp) /\
  ~ In "signature" (keys withTimestamp) /\
  requestParams this now params true
    = (withTimestamp, withTimestamp ++ [("signature", VStr signature)]) /\
  forall axios method endpoint,
    snd (makeRequest this now axios method endpoint params true) = withTimestamp.
Proof.
  intros W F. cbv zeta.
  pose proof (createSignedParams_appends this now params W F) as E.
  split; [exact E|]. split; [apply signedQueryString_canonical|].
  split; [|split; [exact E|]].
  - rewrite in_keys_set. intros [D|I]; [discriminate|tauto].
  - intros axios method endpoint. unfold makeRequest, requestParams.
    rewrite E. now destruct (axios _).
Qed.

Lemma C2_timestamp_then_sign_then_append_witness :
  createSignedParams client 1000 [("symbol", VStr "BTCUSDT")]
  = ([("symbol", VStr "BTCUSDT"); ("timestamp", VNum 1000)],
     [("symbol", VStr "BTCUSDT"); ("timestamp", VNum 1000)]
     ++ [("signature",
          VStr (generateSignature client
                  (signedQueryString
                     [("symbol", VStr "BTCUSDT"); ("timestamp", VNum 1000)])))]).
Proof.
  refine (proj1 (C2_timestamp_then_sign_then_append client 1000
                   [("symbol", VStr "BTCUSDT")] _ _)).
  - reflexivity.
  - simpl. intros [E|[]]. discriminate.
Defined.

(** ** Where the parameters travel *)

(** The two branches of [makeRequest] after [config] is created. *)
Lemma buildConfig_get (this : t) (method endpoint : string) (params : obj) :
  toLowerCase method = "get" ->
  data (buildConfig this method endpoint params) = None /\
  url (buildConfig this method endpoint params)
    = match keys params with
      | [] => baseURL this +++ endpoint
      | _ :: _ => (baseURL this +++ endpoint) +++ "?" +++ urlQueryString params
      end.
Proof.
  intros G. unfold buildConfig. rewrite G. simpl.
  destruct (keys params); simpl; auto.
Qed.

Lemma buildConfig_other (this : t) (method endpoint : string) (params : obj) :
  toLowerCase method <> "get" ->
  data (buildConfig this method endpoint params) = Some params /\
  url (buildConfig this method endpoint params) = baseURL this +++ endpoint.
Proof.
  intros G. unfold buildConfig. apply String.eqb_neq in G. rewrite G. auto.
Qed.

(** Neither branch touches the headers or the timeout. *)
Lemma buildConfig_fixed_fields (this : t) (method endpoint : string)
    (params : obj) :
  headers (buildConfig this method endpoint params) = getHeaders this /\
  timeout (buildConfig this method endpoint params) = 30000.
Proof.
  unfold buildConfig. destruct (toLowerCase method =? "get")%string;
    [destruct (0 <? _)%nat|]; split; reflexivity.
Qed.

(** C3, as stated, fails for DELETE: the parameters are in the body and
    the URL has no query string. *)
Lemma C3_delete_goes_in_the_body :
  url (buildConfig client "DELETE" "/api/v3/order"
         (snd (requestParams client 1000 [("symbol", VStr "BTCUSDT")] false)))
    = "https://api.binance.com/api/v3/order" /\
  data (buildConfig client "DELETE" "/api/v3/order"
          (snd (requestParams client 1000 [("symbol", VStr "BTCUSDT")] false)))
    = Some [("symbol", VStr "BTCUSDT")].
Proof. split; reflexivity. Qed.

(** C3, amended.  For every built request: when the method is GET (in any
    letter case) every parameter, the signature included, is in the URL query
    string, rendered key by key, and the body is not set; for every other
    method, POST, PUT and DELETE among them, the body is the whole parameter
    mapping and the URL is the base URL and the endpoint with no query string.
    The parameters are never split between the two. *)
Theorem C3_get_in_the_query_everything_else_in_the_body
    (this : t) (method endpoint : string) (params : obj) :
  let request := buildConfig this method endpoint params in
  (toLowerCase method = "get" ->
     data request = None /\
     url request
       = match keys params with
         | [] => baseURL this +++ endpoint
         | _ :: _ =>
             (baseURL this +++ endpoint) +++ "?" +++
             String.concat "&"
               (map (fun key => key +++ "=" +++
                       encodeURIComponent (toString (get (VObj params) key)))
                    (keys params))
         end) /\
  (toLowerCase method <> "get" ->
     data request = Some params /\ url request = baseURL this +++ endpoint) /\
  (method = "GET" -> data request = None) /\
  (In method ["POST"; "PUT"; "DELETE"] ->
     data request = Some params /\ url request = baseURL this +++ endpoint).
Proof.
  cbv zeta. split; [|split; [|split]].
  - apply buildConfig_get.
  - apply buildConfig_other.
  - intros ->. now apply buildConfig_get.
  - intros [<-|[<-|[<-|[]]]]; now apply buildConfig_other.
Qed.

Lemma C3_get_in_the_query_everything_else_in_the_body_witness :
  (data (buildConfig client "GET" "/api/v3/account"
           (snd (requestParams client 1000 [] true))) = None /\
   url (buildConfig client "GET" "/api/v3/account"
          (snd (requestParams client 1000 [] true)))
     = "https://api.binance.com/api/v3/account?timestamp=1000&signature=3764032f7e75a3b48caf0c0fe6c6e73025cb44b0d87cb39e53214e22b873691d") /\
  (data (buildConfig client "POST" "/sapi/v1/capital/withdraw/apply"
           [("coin", VStr "BTC")]) = Some [("coin", VStr "BTC")] /\
   url (buildConfig client "POST" "/sapi/v1/capital/withdraw/apply"
          [("coin", VStr "BTC")])
     = "https://api.binance.com/sapi/v1/capital/withdraw/apply").
Proof.
  split.
  - refine (proj1 (C3_get_in_the_query_everything_else_in_the_body
                     client "GET" "/api/v3/account"
                     (snd (requestParams client 1000 [] true))) _).
    reflexivity.
  - refine (proj1 (proj2 (C3_get_in_the_query_everything_else_in_the_body
                            client "POST" "/sapi/v1/capital/withdraw/apply"
                            [("coin", VStr "BTC")])) _).
    vm_compute. discriminate.
Defined.

(** ** Headers *)

(** C4, as stated, fails: no header is named [X-API-KEY]; the key travels
    as [X-MBX-APIKEY]. *)
Lemma C4_no_header_named_X_API_KEY :
  lookup "X-API-KEY" (getHeaders client) = None /\
  keys (getHeaders client) = ["X-MBX-APIKEY"; "Content-Type"; "User-Agent"].
Proof. split; reflexivity. Qed.

(** C4, amended.  Every built request carries exactly three headers:
    [X-MBX-APIKEY] set to the instance's API key, [Content-Type] set to
    [application/json] and [User-Agent] set to [LockBay-Binance-Proxy/1.0.0]. *)
Theorem C4_headers_of_every_request
    (this : t) (method endpoint : string) (params : obj) :
  headers (buildConfig this method endpoint params) = getHeaders this /\
  getHeaders this
    = [("X-MBX-APIKEY", VStr (apiKey this));
       ("Content-Type", VStr "application/json");
       ("User-Agent", VStr "LockBay-Binance-Proxy/1.0.0")] /\
  lookup "X-MBX-APIKEY" (headers (buildConfig this method endpoint params))
    = Some (VStr (apiKey this)) /\
  lookup "X-API-KEY" (headers (buildConfig this method endpoint params)) = None.
Proof.
  destruct (buildConfig_fixed_fields this method endpoint params) as [E _].
  rewrite E. repeat split.
Qed.

(** ** Unsigned calls *)

(** C8, as stated, fails: a [timestamp] the caller passes to an unsigned
    call is sent on like any other parameter. *)
Lemma C8_caller_timestamp_is_sent :
  url (buildConfig client "GET" "/api/v3/time"
         (snd (requestParams client 1000 [("timestamp", VNum 5)] false)))
    = "https://api.binance.com/api/v3/time?timestamp=5" /\
  data (buildConfig client "POST" "/api/v3/time"
          (snd (requestParams client 1000 [("timestamp", VNum 5)] false)))
    = Some [("timestamp", VNum 5)].
Proof. split; reflexivity. Qed.

(** C8, amended.  For every call with [requiresSignature] false the
    parameter mapping is used as the caller gave it and the caller's object is
    left as it was: the request holds a key exactly when the caller's mapping
    holds it, so no [timestamp] and no [signature] is added; a GET renders
    just these parameters into the query string and sets no body, any other
    method sends just this mapping as the body. *)
Theorem C8_unsigned_parameters_pass_through
    (this : t) (now : Z) (method endpoint : string) (params : obj) :
  let sent := snd (requestParams this now params false) in
  let request := buildConfig this method endpoint sent in
  sent = params /\
  (forall axios,
     snd (makeRequest this now axios method endpoint params false) = params) /\
  (forall key, In key (keys sent) <-> In key (keys params)) /\
  (~ In "timestamp" (keys params) -> ~ In "timestamp" (keys sent)) /\
  (~ In "signature" (keys params) -> ~ In "signature" (keys sent)) /\
  (toLowerCase method = "get" ->
     data request = None /\
     url request
       = match keys params with
         | [] => baseURL this +++ endpoint
         | _ :: _ => (baseURL this +++ endpoint) +++ "?" +++ urlQueryString params
         end) /\
  (toLowerCase method <> "get" ->
     data request = Some params /\ url request = baseURL this +++ endpoint).
Proof.
  cbv zeta. simpl snd.
  split; [reflexivity|]. split; [|split; [tauto|]].
  - intros axios. unfold makeRequest. simpl. now destruct (axios _).
  - split; [tauto|]. split; [tauto|]. split.
    + apply buildConfig_get.
    + apply buildConfig_other.
Qed.

Lemma C8_unsigned_parameters_pass_through_witness :
  data (buildConfig client "GET" "/api/v3/ticker/price"
          (snd (requestParams client 1000 [("symbol", VStr "BTCUSDT")] false)))
    = None /\
  url (buildConfig client "GET" "/api/v3/ticker/price"
         (snd (requestParams client 1000 [("symbol", VStr "BTCUSDT")] false)))
    = "https://api.binance.com/api/v3/ticker/price?symbol=BTCUSDT".
Proof.
  refine (proj1 (proj2 (proj2 (proj2 (proj2 (proj2
            (C8_unsigned_parameters_pass_through client 1000 "GET"
               "/api/v3/ticker/price" [("symbol", VStr "BTCUSDT")])))))) _).
  reflexivity.
Defined.

(** ** Construction *)

(** C9.  When [BINANCE_API_KEY] or [BINANCE_API_SECRET] is not set (or is
    empty) the constructor throws; and whenever it returns an instance, both
    are set and not empty, the instance holds exactly them, and every
    signature the instance computes is keyed by that secret. *)
Theorem C9_constructor_needs_both_credentials (env : environment) :
  (env "BINANCE_API_KEY" = None \/ env "BINANCE_API_SECRET" = None \/
   env "BINANCE_API_KEY" = Some "" \/ env "BINANCE_API_SECRET" = Some "" ->
   constructor env
     = inl "Binance API credentials not found in environment variables") /\
  (forall this, constructor env = inr this ->
     env "BINANCE_API_KEY" = Some (apiKey this) /\ apiKey this <> "" /\
     env "BINANCE_API_SECRET" = Some (apiSecret this) /\ apiSecret this <> "" /\
     forall queryString,
       generateSignature this queryString
       = Crypto.hex (Crypto.hmac_sha256
                       (Crypto.bytes_of_string (apiSecret this))
                       (Crypto.bytes_of_string queryString))).
Proof.
  unfold constructor, process_env. split.
  - intros [H|[H|[H|H]]]; rewrite H; simpl; try reflexivity;
      now rewrite orb_true_r.
  - intros this.
    destruct (env "BINANCE_API_KEY") as [k|]; [|discriminate].
    destruct (env "BINANCE_API_SECRET") as [s|]; simpl;
      [|rewrite orb_true_r; discriminate].
    destruct (String.eqb_spec k "") as [->|Nk]; simpl; [discriminate|].
    destruct (String.eqb_spec s "") as [->|Ns]; simpl; [discriminate|].
    intros E. injection E as <-. simpl. repeat split; auto.
Qed.

Lemma C9_constructor_needs_both_credentials_witness :
  constructor onlyKey
  = inl "Binance API credentials not found in environment variables".
Proof.
  refine (proj1 (C9_constructor_needs_both_credentials onlyKey) _).
  right. left. reflexivity.
Defined.

(** ** Failures *)

Lemma or_else_truthy (a b : value) : truthy a = true -> or_else a b = a.
Proof. unfold or_else. now intros ->. Qed.

Lemma or_else_falsy (a b : value) : truthy a = false -> or_else a b = b.
Proof. unfold or_else. now intros ->. Qed.

(** The first and the last branch of [errorHandler]. *)
Lemma errorHandler_upstream (env : environment) (iso : string)
    (err response : obj) :
  lookup "response" err = Some (VObj response) ->
  truthy (get (VObj response) "data") = true ->
  errorHandler env iso (VObj err)
  = Some (mkReply
      (or_else (get (VObj response) "status") (VNum 500))
      [("error", VStr "Binance API Error");
       ("message", or_else (get (get (VObj response) "data") "msg")
                           (get (VObj err) "message"));
       ("code", or_else (get (get (VObj response) "data") "code")
                        (VStr "UNKNOWN_ERROR"));
       ("timestamp", VStr iso)]).
Proof.
  intros R D. unfold errorHandler. cbn [nullish get]. rewrite R.
  unfold and_then. cbn [truthy]. now rewrite D.
Qed.

Lemma errorHandler_default (env : environment) (iso : string) (err : obj) :
  truthy (and_then (get (VObj err) "response")
                   (get (get (VObj err) "response") "data")) = false ->
  is_string (get (VObj err) "code") "ECONNREFUSED" = false ->
  is_string (get (VObj err) "code") "ENOTFOUND" = false ->
  errorHandler env iso (VObj err)
  = Some (mkReply
      (or_else (get (VObj err) "status") (VNum 500))
      [("error", VStr "Internal Server Error");
       ("message", if is_string (process_env env "NODE_ENV") "production"
                   then VStr "Something went wrong"
                   else get (VObj err) "message");
       ("timestamp", VStr iso)]).
Proof.
  intros R C1 C2. unfold errorHandler. cbn [nullish]. now rewrite R, C1, C2.
Qed.

(** What [makeRequest] throws when the transport's error has no response. *)
Lemma requestFailure_no_response (error : obj) :
  nullish (get (VObj error) "response") = true ->
  requestFailure error
  = [("success", VBool false);
     ("error", VObj [("msg", get (VObj error) "message")]);
     ("status", VNum 500);
     ("code", VStr "REQUEST_FAILED")].
Proof.
  intros N. unfold requestFailure, opt_get. now rewrite N.
Qed.

(** What it throws when the response has an object as its body. *)
Lemma requestFailure_upstream (error response data : obj) :
  lookup "response" error = Some (VObj response) ->
  lookup "data" response = Some (VObj data) ->
  requestFailure error
  = [("success", VBool false);
     ("error", VObj data);
     ("status", or_else (get (VObj response) "status") (VNum 500));
     ("code", or_else (get (VObj data) "code") (VStr "REQUEST_FAILED"))].
Proof.
  intros R D. unfold requestFailure, opt_get. cbn [get]. rewrite R.
  cbn [nullish get]. rewrite D. reflexivity.
Qed.

(** A [code] of 0 that is present counts as absent in [errorHandler], and
    an empty [msg] is replaced by the error's own message; in [makeRequest]
    the code of a body without [code] is [REQUEST_FAILED]. *)
Example falsy_code_and_msg_read_as_absent :
  errorHandler noEnvironment iso
    (VObj (upstream 400 [("code", VNum 0); ("msg", VStr "")]))
  = Some (mkReply (VNum 400)
      [("error", VStr "Binance API Error");
       ("message", VStr "Request failed");
       ("code", VStr "UNKNOWN_ERROR");
       ("timestamp", VStr iso)]) /\
  requestFailure (upstream 400 [("msg", VStr "Invalid symbol.")])
  = [("success", VBool false);
     ("error", VObj [("msg", VStr "Invalid symbol.")]);
     ("status", VNum 400);
     ("code", VStr "REQUEST_FAILED")].
Proof. split; reflexivity. Qed.

(** C5: the code at the claim's own upstream error, a 400 with the body
    [{code: -1021, msg: "Timestamp outside recvWindow"}].  [errorHandler],
    handed the transport's error itself, answers as the claim says: status
    400, code -1021 and that message.  But the error reaches it only through
    [makeRequest], which throws an object without [response] in its place;
    the first branch of [errorHandler] is not taken, and the route answers
    400 [Internal Server Error] with no code and no message. *)
Theorem C5_upstream_error_through_makeRequest :
  errorHandler noEnvironment iso (VObj (upstream 400 recvWindow))
  = Some (mkReply (VNum 400)
      [("error", VStr "Binance API Error");
       ("message", VStr "Timestamp outside recvWindow");
       ("code", VNum (-1021));
       ("timestamp", VStr iso)]) /\
  fst (makeRequest client 1000 (fun _ => Rejected (upstream 400 recvWindow))
         "GET" "/api/v3/account" [] true)
  = Thrown [("success", VBool false);
            ("error", VObj recvWindow);
            ("status", VNum 400);
            ("code", VNum (-1021))] /\
  lookup "response"
    (requestFailure (upstream 400 recvWindow)) = None /\
  Routes.account client noEnvironment 1000 iso
    (fun _ => Rejected (upstream 400 recvWindow))
  = Some (mkReply (VNum 400)
      [("error", VStr "Internal Server Error");
       ("message", VUndefined);
       ("timestamp", VStr iso)]).
Proof. repeat split; reflexivity. Qed.

(** Every failure of the transport reaches [errorHandler] as the object
    [makeRequest] throws.  That object has no [response], and its [code] is
    the upstream body's or [REQUEST_FAILED]; so when the transport's error had
    no response, the account route answers from the last branch of
    [errorHandler], whatever the transport's own [code] was. *)
Lemma account_failure_without_response (binance : t) (env : environment)
    (now : Z) (iso : string) (axios : config -> settled) (error : obj) :
  axios (buildConfig binance "GET" "/api/v3/account"
           (snd (requestParams binance now [] true))) = Rejected error ->
  nullish (get (VObj error) "response") = true ->
  Routes.account binance env now iso axios
  = Some (mkReply (VNum 500)
      [("error", VStr "Internal Server Error");
       ("message", if is_string (process_env env "NODE_ENV") "production"
                   then VStr "Something went wrong"
                   else VUndefined);
       ("timestamp", VStr iso)]).
Proof.
  intros A N. unfold Routes.account, makeRequest.
  destruct (requestParams binance now [] true) as [caller sent] eqn:P.
  simpl snd in A. rewrite A. simpl fst.
  rewrite (requestFailure_no_response error N). reflexivity.
Qed.

(** C6: the code at a refused connection.  [errorHandler], handed the
    transport's error itself, answers 503 [CONNECTION_ERROR]; but the error
    reaches it only through [makeRequest], whose thrown object has the code
    [REQUEST_FAILED], and the route answers 500 [Internal Server Error] with
    no message. *)
Theorem C6_refused_connection_through_makeRequest :
  errorHandler noEnvironment iso (VObj refused)
  = Some (mkReply (VNum 503)
      [("error", VStr "Service Unavailable");
       ("message", VStr "Unable to connect to Binance API");
       ("code", VStr "CONNECTION_ERROR");
       ("timestamp", VStr iso)]) /\
  fst (makeRequest client 1000 (fun _ => Rejected refused)
         "GET" "/api/v3/account" [] true)
  = Thrown [("success", VBool false);
            ("error", VObj [("msg", VStr "connect ECONNREFUSED 127.0.0.1:443")]);
            ("status", VNum 500);
            ("code", VStr "REQUEST_FAILED")] /\
  Routes.account client noEnvironment 1000 iso (fun _ => Rejected refused)
  = Some (mkReply (VNum 500)
      [("error", VStr "Internal Server Error");
       ("message", VUndefined);
       ("timestamp", VStr iso)]).
Proof. repeat split; reflexivity. Qed.

(** C7, as stated, fails: a call that ran into the timeout is reported
    like any other failure without a response.  What [makeRequest] throws for
    it has the status and code it has for a connection that was reset, and
    [errorHandler] answers both from its last branch; in production the two
    answers are the same. *)
Lemma C7_timeout_reported_as_any_failure :
  get (VObj (requestFailure timedOut)) "code" = VStr "REQUEST_FAILED" /\
  get (VObj (requestFailure hungUp)) "code" = VStr "REQUEST_FAILED" /\
  get (VObj (requestFailure timedOut)) "status" = VNum 500 /\
  get (VObj (requestFailure hungUp)) "status" = VNum 500 /\
  errorHandler production iso (VObj timedOut)
  = errorHandler production iso (VObj hungUp) /\
  errorHandler noEnvironment iso (VObj timedOut)
  = Some (mkReply (VNum 500)
      [("error", VStr "Internal Server Error");
       ("message", VStr "timeout of 30000ms exceeded");
       ("timestamp", VStr iso)]).
Proof. repeat split; reflexivity. Qed.

(** C7, amended.  Every request handed to the transport carries a timeout
    of 30000 milliseconds.  A call that fails with no response, one that ran
    into the timeout included, is thrown by [makeRequest] with status 500,
    code [REQUEST_FAILED] and the transport's message; and [errorHandler]
    answers such an error, unless its code is [ECONNREFUSED] or [ENOTFOUND],
    from its last branch: there is no kind of its own for a timeout. *)
Theorem C7_timeout_set_and_failure_generic (this : t) (env : environment)
    (now : Z) (iso : string) (method endpoint : string) (params : obj)
    (requiresSignature : bool) (error : obj) :
  timeout (buildConfig this method endpoint
             (snd (requestParams this now params requiresSignature))) = 30000 /\
  (nullish (get (VObj error) "response") = true ->
   fst (makeRequest this now (fun _ => Rejected error) method endpoint params
          requiresSignature)
   = Thrown [("success", VBool false);
             ("error", VObj [("msg", get (VObj error) "message")]);
             ("status", VNum 500);
             ("code", VStr "REQUEST_FAILED")] /\
   (is_string (get (VObj error) "code") "ECONNREFUSED" = false ->
    is_string (get (VObj error) "code") "ENOTFOUND" = false ->
    errorHandler env iso (VObj error)
    = Some (mkReply
        (or_else (get (VObj error) "status") (VNum 500))
        [("error", VStr "Internal Server Error");
         ("message", if is_string (process_env env "NODE_ENV") "production"
                     then VStr "Something went wrong"
                     else get (VObj error) "message");
         ("timestamp", VStr iso)]))).
Proof.
  split; [|intros N; split].
  - apply buildConfig_fixed_fields.
  - unfold makeRequest.
    destruct (requestParams this now params requiresSignature). simpl.
    now rewrite (requestFailure_no_response error N).
  - intros C1 C2. apply errorHandler_default; [|exact C1|exact C2].
    unfold and_then. destruct (get (VObj error) "response"); try discriminate;
      reflexivity.
Qed.

Lemma C7_timeout_set_and_failure_generic_witness :
  timeout (buildConfig client "GET" "/api/v3/account"
             (snd (requestParams client 1000 [] true))) = 30000 /\
  fst (makeRequest client 1000 (fun _ => Rejected timedOut)
         "GET" "/api/v3/account" [] true)
  = Thrown [("success", VBool false);
            ("error", VObj [("msg", VStr "timeout of 30000ms exceeded")]);
            ("status", VNum 500);
            ("code", VStr "REQUEST_FAILED")] /\
  errorHandler noEnvironment iso (VObj timedOut)
  = Some (mkReply (VNum 500)
      [("error", VStr "Internal Server Error");
       ("message", VStr "timeout of 30000ms exceeded");
       ("timestamp", VStr iso)]).
Proof.
  destruct (C7_timeout_set_and_failure_generic client noEnvironment 1000 iso
              "GET" "/api/v3/account" [] true timedOut)
    as [T F].
  destruct (F eq_refl) as [M H].
  split; [exact T|]. split; [exact M|exact (H eq_refl eq_refl)].
Defined.

(** ** The transmitted query string against the signed string *)

Section QueryStrings.

Lemma append_assoc (a b c : string) : (a +++ b) +++ c = a +++ b +++ c.
Proof. induction a; simpl; [reflexivity|now rewrite IHa]. Qed.

Lemma mem_char_app (c : ascii) (a b : string) :
  mem_char c (a +++ b) = mem_char c a || mem_char c b.
Proof.
  induction a; simpl; [reflexivity|]. now rewrite IHa, orb_assoc.
Qed.

(** Two strings cut at their first [c] have the same two parts. *)
Lemma first_separator (c : ascii) (x y r1 r2 : string) :
  mem_char c x = false -> mem_char c y = false ->
  x +++ String c r1 = y +++ String c r2 -> x = y /\ r1 = r2.
Proof.
  revert y. induction x as [|a x IH]; intros [|b y]; simpl; intros Hx Hy E.
  - injection E as <-. auto.
  - injection E as <- _. now rewrite Ascii.eqb_refl in Hy.
  - injection E as -> _. now rewrite Ascii.eqb_refl in Hx.
  - apply orb_false_iff in Hx, Hy. injection E as <- E.
    destruct (IH y) as [<- <-]; tauto.
Qed.

Lemma concat_cons (sep x y : string) (l : list string) :
  String.concat sep (x :: y :: l) = x +++ sep +++ String.concat sep (y :: l).
Proof. reflexivity. Qed.

Lemma concat_snoc (sep x : string) (l : list string) :
  l <> [] -> String.concat sep (l ++ [x]) = String.concat sep l +++ sep +++ x.
Proof.
  induction l as [|a l IH]; [congruence|]. intros _.
  destruct l as [|b l]; [reflexivity|].
  change ((a :: b :: l) ++ [x]) with (a :: (b :: l) ++ [x]).
  cbn [app]. rewrite !concat_cons. cbn [app] in IH.
  rewrite IH by discriminate. now rewrite !append_assoc.
Qed.

(** Joining with [&] loses nothing when no piece is empty or holds [&]. *)
Lemma concat_amp_injective (l1 l2 : list string) :
  Forall (fun x => mem_char "&" x = false /\ x <> "") l1 ->
  Forall (fun x => mem_char "&" x = false /\ x <> "") l2 ->
  String.concat "&" l1 = String.concat "&" l2 -> l1 = l2.
Proof.
  intros F1. revert l2.
  induction F1 as [|x r1 [Ax Nx] F1 IH]; intros l2 F2 E.
  - destruct F2 as [|y r2 [Ay Ny] F2]; [reflexivity|].
    exfalso. destruct r2; simpl in E; destruct y; try discriminate; congruence.
  - destruct F2 as [|y r2 [Ay Ny] F2].
    + exfalso. destruct r1; simpl in E; destruct x; try discriminate; congruence.
    + destruct r1 as [|x2 r1], r2 as [|y2 r2].
      * simpl in E. now subst.
      * exfalso. rewrite concat_cons in E.
        change (String.concat "&" [x]) with x in E.
        rewrite E, mem_char_app in Ax.
        simpl in Ax. now rewrite orb_true_r in Ax.
      * exfalso. rewrite concat_cons in E.
        change (String.concat "&" [y]) with y in E.
        rewrite <- E, mem_char_app in Ay.
        simpl in Ay. now rewrite orb_true_r in Ay.
      * rewrite !concat_cons in E.
        destruct (first_separator "&" x y _ _ Ax Ay E) as [<- E'].
        f_equal. now apply IH.
Qed.

Ltac each_code_unit c := destruct c as [[] [] [] [] [] [] [] []].

Lemma encodeURIComponent_no_amp (s : string) :
  mem_char "&" (encodeURIComponent s) = false.
Proof.
  induction s as [|c s IH]; [reflexivity|].
  cbn [encodeURIComponent]. rewrite mem_char_app, IH, orb_false_r.
  each_code_unit c; reflexivity.
Qed.

Lemma lower_hex_unreserved (c : ascii) :
  mem_char c "0123456789abcdef" = true -> unreserved c = true.
Proof.
  each_code_unit c; intros H; try discriminate H; reflexivity.
Qed.

(** A hexadecimal digest is sent as it is. *)
Lemma encodeURIComponent_lower_hex (s : string) :
  lower_hex s = true -> encodeURIComponent s = s.
Proof.
  unfold lower_hex. induction s as [|c s IH]; [reflexivity|].
  cbn [all_chars encodeURIComponent]. intros H.
  apply andb_true_iff in H. destruct H as [Hc Hs].
  now rewrite (lower_hex_unreserved c Hc), IH.
Qed.

Lemma keyValue_piece (m : obj) (k : string) :
  mem_char "&" k = false ->
  mem_char "&" (keyValue m k) = false /\ keyValue m k <> "".
Proof.
  intros H. unfold keyValue. split.
  - rewrite !mem_char_app, H, encodeURIComponent_no_amp. reflexivity.
  - destruct k; discriminate.
Qed.

Lemma keyValue_injective (m : obj) (k1 k2 : string) :
  mem_char "=" k1 = false -> mem_char "=" k2 = false ->
  keyValue m k1 = keyValue m k2 -> k1 = k2.
Proof.
  intros H1 H2 E. unfold keyValue in E.
  now destruct (first_separator "=" k1 k2 _ _ H1 H2 E).
Qed.

Lemma key_plain_iff (k : string) :
  key_plain k = true <-> mem_char "&" k = false /\ mem_char "=" k = false.
Proof.
  unfold key_plain. rewrite andb_true_iff, !negb_true_iff. tauto.
Qed.

Lemma map_keyValue_injective (m : obj) (ks1 ks2 : list string) :
  Forall (fun k => key_plain k = true) ks1 ->
  Forall (fun k => key_plain k = true) ks2 ->
  map (keyValue m) ks1 = map (keyValue m) ks2 -> ks1 = ks2.
Proof.
  intros F1. revert ks2.
  induction F1 as [|a ks1 Pa F1 IH]; intros ks2 F2 E;
    destruct F2 as [|b ks2 Pb F2]; try discriminate; [reflexivity|].
  simpl in E. injection E as E1 E2.
  apply key_plain_iff in Pa, Pb.
  f_equal; [apply (keyValue_injective m); tauto|now apply IH].
Qed.

(** With plain keys, two arrangements of the keys that render to the same
    string are the same arrangement. *)
Lemma rendering_injective (m : obj) (ks1 ks2 : list string) :
  Forall (fun k => key_plain k = true) ks1 ->
  Forall (fun k => key_plain k = true) ks2 ->
  String.concat "&" (map (keyValue m) ks1)
  = String.concat "&" (map (keyValue m) ks2) ->
  ks1 = ks2.
Proof.
  intros F1 F2 E. apply (map_keyValue_injective m); [exact F1|exact F2|].
  apply concat_amp_injective; [| |exact E];
    apply Forall_map; (eapply Forall_impl; [|eassumption]);
    intros k Pk; apply keyValue_piece; now apply key_plain_iff in Pk.
Qed.

Lemma keyValue_app (m extra : obj) (k : string) :
  In k (keys m) -> keyValue (m ++ extra) k = keyValue m k.
Proof.
  intros I. unfold keyValue. cbn [get]. rewrite lookup_app.
  apply in_keys_lookup in I. now destruct (lookup k m).
Qed.

End QueryStrings.

(** C10, as stated, fails in two places.  With a key that holds [=] and
    [&] the transmitted string is the signed one although the keys are not
    in sorted order; and a [timestamp] of the caller's keeps its place, so the
    timestamp does not come after the caller's other parameters. *)
Lemma C10_same_string_from_unsorted_keys :
  wf [("a=1&a", VNum 1); ("a", VNum 1)] = true /\
  keys (fst (requestParams client 1000 [("a=1&a", VNum 1); ("a", VNum 1)] true))
    = ["a=1&a"; "a"; "timestamp"] /\
  sort (keys (fst (requestParams client 1000
                     [("a=1&a", VNum 1); ("a", VNum 1)] true)))
    = ["a"; "a=1&a"; "timestamp"] /\
  urlQueryString (fst (requestParams client 1000
                         [("a=1&a", VNum 1); ("a", VNum 1)] true))
    = signedQueryString (fst (requestParams client 1000
                                [("a=1&a", VNum 1); ("a", VNum 1)] true)) /\
  keys (snd (requestParams client 1000
               [("timestamp", VNum 5); ("symbol", VStr "BTCUSDT")] true))
    = ["timestamp"; "symbol"; "signature"].
Proof. repeat split; vm_compute; reflexivity. Qed.

(** C10, amended.  For every signed GET request whose parameters
    (well-formed, as the own keys of every object are) hold no [timestamp]
    and no [signature] of the caller's: the keys sent are the caller's in their own order, then
    [timestamp], then [signature]; the URL query string renders them in that
    order, unsorted, so it is the rendering of the parameters and the
    timestamp in their own order followed by [&signature=] and the digest;
    that rendering is the signed canonical string whenever the own order is
    already the sorted one, and, when no key of the caller's holds [&] or
    [=], only then; and for some mapping the two strings differ. *)
Theorem C10_query_string_in_own_key_order (this : t) (now : Z)
    (method endpoint : string) (params : obj) :
  wf params = true ->
  ~ In "timestamp" (keys params) ->
  ~ In "signature" (keys params) ->
  toLowerCase method = "get" ->
  let withTimestamp := fst (requestParams this now params true) in
  let sent := snd (requestParams this now params true) in
  let signature := generateSignature this (signedQueryString withTimestamp) in
  keys sent = keys params ++ ["timestamp"; "signature"] /\
  url (buildConfig this method endpoint sent)
    = (baseURL this +++ endpoint) +++ "?" +++
      String.concat "&" (map (keyValue sent) (keys sent)) /\
  String.concat "&" (map (keyValue sent) (keys sent))
    = urlQueryString withTimestamp +++ "&signature=" +++ signature /\
  (keys withTimestamp = sort (keys withTimestamp) ->
   urlQueryString withTimestamp = signedQueryString withTimestamp) /\
  (forallb key_plain (keys params) = true ->
   urlQueryString withTimestamp = signedQueryString withTimestamp ->
   keys withTimestamp = sort (keys withTimestamp)) /\
  exists other : obj,
    wf other = true /\
    urlQueryString (fst (requestParams this now other true))
    <> signedQueryString (fst (requestParams this now other true)).
Proof.
  intros W Ft Fs G. cbv zeta. unfold requestParams.
  rewrite (createSignedParams_appends this now params W Fs).
  cbn [fst snd].
  assert (set params "timestamp" (VNum now)
          = params ++ [("timestamp", VNum now)]) as Et
    by (apply set_fresh; [exact Ft|reflexivity]).
  rewrite Et.
  set (w := params ++ [("timestamp", VNum now)]).
  set (sig := generateSignature this (signedQueryString w)).
  assert (keys w = keys params ++ ["timestamp"]) as Kw
    by (unfold w, keys; now rewrite map_app).
  assert (keys (w ++ [("signature", VStr sig)])
          = keys params ++ ["timestamp"; "signature"]) as Ks.
  { unfold keys at 1. rewrite map_app. fold (keys w). rewrite Kw.
    now rewrite <- app_assoc. }
  split; [exact Ks|]. split; [|split; [|split; [|split]]].
  - destruct (buildConfig_get this method endpoint
                (w ++ [("signature", VStr sig)]) G) as [_ U].
    rewrite U. unfold urlQueryString, join. rewrite Ks.
    destruct (keys params); reflexivity.
  - unfold keys at 1. rewrite map_app, map_app. fold (keys w).
    cbn [map fst].
    rewrite concat_snoc
      by (rewrite Kw; destruct (keys params); discriminate).
    rewrite (map_ext_in _ (keyValue w))
      by (intros k Ik; now apply keyValue_app).
    fold (join "&" (map (keyValue w) (keys w))). fold (urlQueryString w).
    f_equal. unfold keyValue at 1. cbn [get].
    rewrite lookup_app.
    assert (lookup "signature" w = None) as L.
    { apply lookup_None_keys. rewrite Kw, in_app_iff.
      intros [I|[D|[]]]; [tauto|discriminate]. }
    rewrite L. cbn [lookup String.eqb Ascii.eqb Bool.eqb toString].
    rewrite encodeURIComponent_lower_hex
      by apply (generateSignature_lower_hex this).
    reflexivity.
  - intros S. unfold urlQueryString, signedQueryString. now rewrite <- S.
  - intros P E. apply (rendering_injective w); [| |exact E].
    + rewrite Kw. apply Forall_app. split.
      * now apply Forall_forall, forallb_forall.
      * repeat constructor.
    + eapply Permutation_Forall; [symmetry; apply sort_perm|].
      rewrite Kw. apply Forall_app. split.
      * now apply Forall_forall, forallb_forall.
      * repeat constructor.
  - exists [("zeta", VNum 1)]. split; [reflexivity|].
    cbn. discriminate.
Qed.

Lemma C10_query_string_in_own_key_order_witness :
  keys (snd (requestParams client 1000 [("symbol", VStr "BTCUSDT")] true))
    = keys [("symbol", VStr "BTCUSDT")] ++ ["timestamp"; "signature"] /\
  url (buildConfig client "GET" "/sapi/v1/capital/deposit/address"
         (snd (requestParams client 1000 [("symbol", VStr "BTCUSDT")] true)))
    = (baseURL client +++ "/sapi/v1/capital/deposit/address") +++ "?" +++
      String.concat "&"
        (map (keyValue
                (snd (requestParams client 1000
                        [("symbol", VStr "BTCUSDT")] true)))
             (keys (snd (requestParams client 1000
                           [("symbol", VStr "BTCUSDT")] true)))).
Proof.
  assert (~ In "timestamp" (keys [("symbol", VStr "BTCUSDT")])) as Ft
    by (simpl; intros [E|[]]; discriminate).
  assert (~ In "signature" (keys [("symbol", VStr "BTCUSDT")])) as Fs
    by (simpl; intros [E|[]]; discriminate).
  destruct (C10_query_string_in_own_key_order client 1000 "GET"
              "/sapi/v1/capital/deposit/address"
              [("symbol", VStr "BTCUSDT")] eq_refl Ft Fs eq_refl)
    as [K [U _]].
  split; [exact K|exact U].
Defined.


(** ** [errorHandler] on its own, and behind [makeRequest] *)



(** Whatever the transport throws, the object [makeRequest] throws in its
    place has no [response] and no [message], and its [code] is the upstream
    body's or [REQUEST_FAILED]: of the transport's own [code] nothing is
    left. *)
Theorem makeRequest_failure_shape (this : t) (now : Z)
    (axios : config -> settled) (method endpoint : string) (params : obj)
    (requiresSignature : bool) :
  match fst (makeRequest this now axios method endpoint params
               requiresSignature) with
  | Returned result => keys result = ["success"; "data"; "status"]
  | Thrown thrown =>
      keys thrown = ["success"; "error"; "status"; "code"] /\
      get (VObj thrown) "response" = VUndefined /\
      get (VObj thrown) "message" = VUndefined /\
      exists error,
        axios (buildConfig this method endpoint
                 (snd (requestParams this now params requiresSignature)))
          = Rejected error /\
        get (VObj thrown) "code"
        = or_else (opt_get (opt_get (get (VObj error) "response") "data") "code")
                  (VStr "REQUEST_FAILED")
  end.
Proof.
  unfold makeRequest.
  destruct (requestParams this now params requiresSignature) as [c p].
  cbn [snd]. destruct (axios _) as [response|error] eqn:A; cbn [fst].
  - reflexivity.
  - repeat split. exists error. split; reflexivity.
Qed.

(** Every failure of the transport that has no response leaves the account
    route with the same answer; here for the refused connection. *)
Lemma account_failure_without_response_witness :
  Routes.account client production 1000 iso (fun _ => Rejected refused)
  = Some (mkReply (VNum 500)
      [("error", VStr "Internal Server Error");
       ("message", VStr "Something went wrong");
       ("timestamp", VStr iso)]).
Proof.
  exact (account_failure_without_response client production 1000 iso
           (fun _ => Rejected refused) refused eq_refl eq_refl).
Defined.

(** An upstream error body goes the same way: the route answers with the
    upstream status and neither the upstream code nor its message. *)
Example upstream_error_through_the_route :
  Routes.account client noEnvironment 1000 iso
    (fun _ => Rejected (upstream 400 recvWindow))
  = Some (mkReply (VNum 400)
      [("error", VStr "Internal Server Error");
       ("message", VUndefined);
       ("timestamp", VStr iso)]).
Proof. reflexivity. Qed.

(** * Further properties of the code *)

(** ** [createSignedParams]: what it keeps, and what the order of the
    caller's keys does not change *)

Section Signing.

Lemma wf_keys_NoDup (ks : list string) : wf_keys ks = true -> NoDup ks.
Proof.
  induction ks as [|k ks IH]; simpl; [constructor|].
  intros H. apply andb_true_iff in H. destruct H as [F W].
  constructor; [|now apply IH].
  intros I. rewrite forallb_forall in F. specialize (F k I).
  unfold own_before in F. now rewrite String.eqb_refl in F.
Qed.

Lemma lookup_permutation (o1 o2 : obj) (k : string) :
  NoDup (keys o1) -> Permutation o1 o2 -> lookup k o1 = lookup k o2.
Proof.
  intros N P. revert N.
  induction P as [|[a v] l1 l2 P IH|[a v] [b w] l|l1 l2 l3 P1 IH1 P2 IH2];
    intros N.
  - reflexivity.
  - simpl. inversion N; subst. now rewrite IH.
  - simpl. simpl in N. inversion N as [|? ? Na Nb]; subst.
    destruct (String.eqb_spec k b) as [->|]; [|reflexivity].
    destruct (String.eqb_spec b a) as [->|]; [|reflexivity].
    exfalso. apply Na. now left.
  - rewrite IH1 by exact N. apply IH2.
    eapply Permutation_NoDup; [|exact N]. unfold keys.
    now apply Permutation_map.
Qed.

(** The signed string looks at a mapping only through its set of keys and
    the value under each key. *)
Lemma signedQueryString_ext (m1 m2 : obj) :
  Permutation (keys m1) (keys m2) ->
  (forall k, lookup k m1 = lookup k m2) ->
  signedQueryString m1 = signedQueryString m2.
Proof.
  intros P L. unfold signedQueryString.
  assert (sort (keys m1) = sort (keys m2)) as ->.
  { apply sort_unique; [|apply sort_sorted].
    rewrite sort_perm. exact P. }
  f_equal. apply map_ext. intros k. unfold keyValue. cbn [get]. now rewrite L.
Qed.

Lemma set_set (o : obj) (k : string) (v1 v2 : value) :
  set (set o k v1) k v2 = set o k v2.
Proof.
  unfold set at 1. rewrite lookup_set_same.
  unfold set. destruct (lookup k o) eqn:L.
  - clear L. induction o as [|[k' v'] o IH]; simpl; [reflexivity|].
    destruct (String.eqb_spec k k') as [->|N]; simpl.
    + now rewrite String.eqb_refl.
    + apply String.eqb_neq in N. rewrite N. now rewrite IH.
  - destruct (array_index k) as [n|].
    + induction o as [|[k' v'] o IH]; simpl.
      * now rewrite String.eqb_refl.
      * simpl in L. destruct (String.eqb_spec k k') as [->|N]; [discriminate|].
        destruct (array_index k') as [m|]; [destruct (n <? m)%N|]; simpl;
          rewrite ?String.eqb_refl; try reflexivity.
        apply String.eqb_neq in N. rewrite N. now rewrite IH.
    + induction o as [|[k' v'] o IH]; simpl.
      * now rewrite String.eqb_refl.
      * simpl in L. destruct (String.eqb_spec k k') as [->|N]; [discriminate|].
        now rewrite IH.
Qed.

End Signing.

(** Every parameter of the caller's other than [timestamp] and [signature]
    is in the returned mapping with the value the caller gave it; the
    returned mapping holds no key besides these, [timestamp] and
    [signature]; and [timestamp] is the clock reading. *)
Theorem createSignedParams_keeps_caller_parameters (this : t) (now : Z)
    (params : obj) :
  wf params = true ->
  let signed := snd (createSignedParams this now params) in
  (forall k, k <> "timestamp" -> k <> "signature" ->
             lookup k signed = lookup k params) /\
  (forall k, In k (keys signed) <->
             k = "signature" \/ k = "timestamp" \/ In k (keys params)) /\
  lookup "timestamp" signed = Some (VNum now).
Proof.
  intros W. cbv zeta. unfold createSignedParams. cbn [snd].
  rewrite spread_wf by (apply wf_set_named; [reflexivity|exact W]).
  split; [|split].
  - intros k Nt Ns. now rewrite !lookup_set_other.
  - intros k. now rewrite !in_keys_set.
  - rewrite lookup_set_other by discriminate. apply lookup_set_same.
Qed.

Lemma createSignedParams_keeps_caller_parameters_witness :
  lookup "timestamp"
    (snd (createSignedParams client 1000
            [("coin", VStr "BTC"); ("timestamp", VNum 5)]))
  = Some (VNum 1000).
Proof.
  refine (proj2 (proj2 (createSignedParams_keeps_caller_parameters client 1000
                          [("coin", VStr "BTC"); ("timestamp", VNum 5)] _))).
  reflexivity.
Defined.

(** The order in which the caller's mapping lists its parameters does not
    reach the signature: two mappings with the same entries in different
    orders are signed over the same string and get the same digest. *)
Theorem signature_independent_of_key_order (this : t) (now : Z)
    (params1 params2 : obj) :
  wf params1 = true -> wf params2 = true ->
  Permutation params1 params2 ->
  signedQueryString (fst (createSignedParams this now params1))
  = signedQueryString (fst (createSignedParams this now params2)) /\
  lookup "signature" (snd (createSignedParams this now params1))
  = lookup "signature" (snd (createSignedParams this now params2)).
Proof.
  intros W1 W2 P.
  assert (signedQueryString (set params1 "timestamp" (VNum now))
          = signedQueryString (set params2 "timestamp" (VNum now))) as E.
  { assert (forall k, lookup k params1 = lookup k params2) as L
      by (intros k; apply lookup_permutation;
          [apply wf_keys_NoDup, W1|exact P]).
    apply signedQueryString_ext.
    - apply NoDup_Permutation.
      + apply wf_keys_NoDup. now apply wf_set_named.
      + apply wf_keys_NoDup. now apply wf_set_named.
      + intros k. rewrite !in_keys_set, !in_keys_lookup, L. tauto.
    - intros k. destruct (string_dec k "timestamp") as [->|N].
      + now rewrite !lookup_set_same.
      + now rewrite !lookup_set_other. }
  unfold createSignedParams. cbn [fst snd]. split; [exact E|].
  rewrite !lookup_set_same. now rewrite E.
Qed.

Lemma signature_independent_of_key_order_witness :
  lookup "signature"
    (snd (createSignedParams client 1000
            [("coin", VStr "BTC"); ("network", VStr "BSC")]))
  = lookup "signature"
      (snd (createSignedParams client 1000
              [("network", VStr "BSC"); ("coin", VStr "BTC")])).
Proof.
  refine (proj2 (signature_independent_of_key_order client 1000
                   [("coin", VStr "BTC"); ("network", VStr "BSC")]
                   [("network", VStr "BSC"); ("coin", VStr "BTC")] _ _ _)).
  - reflexivity.
  - reflexivity.
  - apply perm_swap.
Defined.

(** A signed call leaves [timestamp] in the caller's object.  Using that
    object for another signed call is the same as using the original: the old
    timestamp is overwritten in place, and request and outcome are those of a
    fresh call at the new clock reading. *)
Theorem makeRequest_again_with_the_same_object (this : t) (t1 t2 : Z)
    (axios1 axios2 : config -> settled) (method1 endpoint1 method2 endpoint2 : string)
    (params : obj) :
  let after := snd (makeRequest this t1 axios1 method1 endpoint1 params true) in
  lookup "timestamp" after = Some (VNum t1) /\
  createSignedParams this t2 after = createSignedParams this t2 params /\
  makeRequest this t2 axios2 method2 endpoint2 after true
  = makeRequest this t2 axios2 method2 endpoint2 params true.
Proof.
  cbv zeta.
  assert (snd (makeRequest this t1 axios1 method1 endpoint1 params true)
          = set params "timestamp" (VNum t1)) as ->.
  { unfold makeRequest, requestParams, createSignedParams.
    now destruct (axios1 _). }
  assert (createSignedParams this t2 (set params "timestamp" (VNum t1))
          = createSignedParams this t2 params) as E
    by (unfold createSignedParams; now rewrite set_set).
  split; [apply lookup_set_same|]. split; [exact E|].
  unfold makeRequest, requestParams. now rewrite E.
Qed.

(** ** The two query strings: what a value cannot do *)

Ltac by_code_unit c := destruct c as [[] [] [] [] [] [] [] []].

Section Separators.

Lemma count_char_app (c : ascii) (a b : string) :
  count_char c (a +++ b) = (count_char c a + count_char c b)%nat.
Proof. induction a; simpl; [reflexivity|]. rewrite IHa. lia. Qed.

Lemma count_char_absent (c : ascii) (s : string) :
  mem_char c s = false -> count_char c s = O.
Proof.
  induction s as [|d s IH]; simpl; [reflexivity|].
  intros H. apply orb_false_iff in H. destruct H as [-> H]. now rewrite IH.
Qed.

Lemma encodeURIComponent_no_equals (s : string) :
  mem_char "=" (encodeURIComponent s) = false.
Proof.
  induction s as [|c s IH]; [reflexivity|].
  cbn [encodeURIComponent]. rewrite mem_char_app, IH, orb_false_r.
  by_code_unit c; reflexivity.
Qed.

Lemma keyValue_counts (m : obj) (k : string) :
  key_plain k = true ->
  count_char "&" (keyValue m k) = O /\ count_char "=" (keyValue m k) = 1%nat.
Proof.
  intros P. apply key_plain_iff in P. destruct P as [Pa Pe].
  unfold keyValue. rewrite !count_char_app.
  rewrite (count_char_absent "&" k Pa), (count_char_absent "=" k Pe).
  rewrite (count_char_absent _ _ (encodeURIComponent_no_amp _)).
  rewrite (count_char_absent _ _ (encodeURIComponent_no_equals _)).
  split; reflexivity.
Qed.

Lemma rendering_counts (m : obj) (ks : list string) :
  Forall (fun k => key_plain k = true) ks ->
  count_char "&" (String.concat "&" (map (keyValue m) ks))
  = (List.length ks - 1)%nat /\
  count_char "=" (String.concat "&" (map (keyValue m) ks)) = List.length ks.
Proof.
  induction 1 as [|k ks Pk F IH]; [split; reflexivity|].
  destruct (keyValue_counts m k Pk) as [Ca Ce].
  destruct ks as [|k2 ks].
  - simpl. rewrite Ca, Ce. split; reflexivity.
  - cbn [map]. rewrite concat_cons, !count_char_app.
    cbn [map] in IH. destruct IH as [Ia Ie]. rewrite Ca, Ce, Ia, Ie.
    simpl. split; lia.
Qed.

End Separators.

(** When no key holds [&] or [=], no value can add, split or hide a
    parameter: the query string of the URL and the signed string each hold
    one [=] for every parameter and one [&] between two parameters, whatever
    the values are. *)
Theorem query_strings_hold_one_pair_per_parameter (params : obj) :
  forallb key_plain (keys params) = true ->
  count_char "=" (urlQueryString params) = List.length params /\
  count_char "&" (urlQueryString params) = (List.length params - 1)%nat /\
  count_char "=" (signedQueryString params) = List.length params /\
  count_char "&" (signedQueryString params) = (List.length params - 1)%nat.
Proof.
  intros P.
  assert (Forall (fun k => key_plain k = true) (keys params)) as F
    by now apply Forall_forall, forallb_forall.
  assert (Forall (fun k => key_plain k = true) (sort (keys params))) as Fs
    by (eapply Permutation_Forall; [symmetry; apply sort_perm|exact F]).
  destruct (rendering_counts params _ F) as [Ua Ue].
  destruct (rendering_counts params _ Fs) as [Sa Se].
  unfold urlQueryString, signedQueryString, join.
  rewrite Ua, Ue, Sa, Se.
  rewrite (Permutation_length (sort_perm (keys params))).
  unfold keys. rewrite length_map. repeat split.
Qed.

Lemma query_strings_hold_one_pair_per_parameter_witness :
  count_char "=" (urlQueryString
                    [("address", VStr "a&coin=ETH"); ("coin", VStr "BTC")])
  = List.length [("address", VStr "a&coin=ETH"); ("coin", VStr "BTC")].
Proof.
  refine (proj1 (query_strings_hold_one_pair_per_parameter
                   [("address", VStr "a&coin=ETH"); ("coin", VStr "BTC")] _)).
  reflexivity.
Defined.

(** ** [makeRequest]: which methods are read as GET *)

Lemma lower_char_get (c : ascii) :
  (lower_char c = "g"%char -> c = "G"%char \/ c = "g"%char) /\
  (lower_char c = "e"%char -> c = "E"%char \/ c = "e"%char) /\
  (lower_char c = "t"%char -> c = "T"%char \/ c = "t"%char).
Proof.
  by_code_unit c; repeat split; intros H; try discriminate H; auto.
Qed.

Lemma toLowerCase_get_spellings (method : string) :
  toLowerCase method = "get" <->
  In method ["GET"; "GEt"; "GeT"; "Get"; "gET"; "gEt"; "geT"; "get"].
Proof.
  split.
  - intros G.
    destruct method as [|a [|b [|c [|d r]]]]; try discriminate G.
    simpl in G. injection G as Ga Gb Gc.
    destruct (lower_char_get a) as [Ha _].
    destruct (lower_char_get b) as [_ [Hb _]].
    destruct (lower_char_get c) as [_ [_ Hc]].
    destruct (Ha Ga) as [-> | ->], (Hb Gb) as [-> | ->], (Hc Gc) as [-> | ->];
      simpl; tauto.
  - intros I. repeat (destruct I as [<-|I]; [reflexivity|]). destruct I.
Qed.

(** The parameters go into the URL exactly for the eight spellings of
    [get]: for these the URL is the base URL, the endpoint and, when there is
    a parameter, [?] and every parameter rendered in key order, and no body
    is set; for every other method string, the empty one included, the body
    is the parameter mapping itself and the URL is the base URL and the
    endpoint alone. *)
Theorem query_string_exactly_for_the_spellings_of_get
    (this : t) (method endpoint : string) (params : obj) :
  let spellings := ["GET"; "GEt"; "GeT"; "Get"; "gET"; "gEt"; "geT"; "get"] in
  let request := buildConfig this method endpoint params in
  (In method spellings ->
   data request = None /\
   url request
   = match keys params with
     | [] => baseURL this +++ endpoint
     | _ :: _ =>
         (baseURL this +++ endpoint) +++ "?" +++
         String.concat "&"
           (map (fun key => key +++ "=" +++
                   encodeURIComponent (toString (get (VObj params) key)))
                (keys params))
     end) /\
  (~ In method spellings ->
   data request = Some params /\ url request = baseURL this +++ endpoint) /\
  (data request = None <-> In method spellings).
Proof.
  cbv zeta. split; [|split; [|split]].
  - intros I. apply buildConfig_get. now apply toLowerCase_get_spellings.
  - intros N. apply buildConfig_other. intros G. apply N.
    now apply toLowerCase_get_spellings.
  - intros D. apply toLowerCase_get_spellings.
    destruct (string_dec (toLowerCase method) "get") as [G|G]; [exact G|].
    destruct (buildConfig_other this method endpoint params G) as [S _].
    congruence.
  - intros I. apply buildConfig_get. now apply toLowerCase_get_spellings.
Qed.

Lemma query_string_exactly_for_the_spellings_of_get_witness :
  (data (buildConfig client "Get" "/api/v3/time" [("a", VNum 1); ("b", VStr "x y")])
   = None /\
   url (buildConfig client "Get" "/api/v3/time" [("a", VNum 1); ("b", VStr "x y")])
   = "https://api.binance.com/api/v3/time?a=1&b=x%20y") /\
  (data (buildConfig client "" "/api/v3/time" [("a", VNum 1)])
   = Some [("a", VNum 1)] /\
   url (buildConfig client "" "/api/v3/time" [("a", VNum 1)])
   = "https://api.binance.com/api/v3/time").
Proof.
  split.
  - refine (proj1 (query_string_exactly_for_the_spellings_of_get client "Get"
                     "/api/v3/time" [("a", VNum 1); ("b", VStr "x y")]) _).
    simpl. tauto.
  - refine (proj1 (proj2 (query_string_exactly_for_the_spellings_of_get client
                            "" "/api/v3/time" [("a", VNum 1)])) _).
    simpl. intuition discriminate.
Defined.

(** ** The constructor's base URL, and the start of the application *)

(** An instance sends to [BINANCE_BASE_URL] when that is set and not
    empty, and to [https://api.binance.com] otherwise; an empty override is
    ignored. *)
Theorem constructor_base_url (env : environment) (this : t) :
  constructor env = inr this ->
  baseURL this
  = match env "BINANCE_BASE_URL" with
    | Some u => if (u =? "")%string then "https://api.binance.com" else u
    | None => "https://api.binance.com"
    end.
Proof.
  unfold constructor, process_env.
  destruct (negb _ || negb _); [discriminate|].
  intros E. injection E as <-. cbn [baseURL].
  destruct (env "BINANCE_BASE_URL") as [u|]; [|reflexivity].
  unfold or_else. cbn [truthy]. now destruct (u =? "")%string.
Qed.

Lemma constructor_base_url_witness :
  exists this,
    constructor (fun name => if (name =? "BINANCE_BASE_URL")%string
                             then Some "" else Some "K") = inr this /\
    baseURL this = "https://api.binance.com".
Proof.
  exists (mk "K" "K" "https://api.binance.com"). split; [reflexivity|].
  exact (constructor_base_url
           (fun name => if (name =? "BINANCE_BASE_URL")%string then Some ""
                        else Some "K")
           (mk "K" "K" "https://api.binance.com") eq_refl).
Defined.

(** The start-up check agrees with the constructor, so its error branch is
    dead: the list of missing variables is empty exactly when the constructor
    returns, and because the routes construct the instance before the server
    listens, a start that gets to listen never finds a variable missing, and a
    start with a variable missing ends in the constructor's throw. *)
Theorem start_never_reports_a_missing_variable (env : environment) :
  (Application.missingVars env = [] <-> exists this, constructor env = inr this) /\
  (forall missing, Application.start env = Application.Listening missing ->
                   missing = []) /\
  (Application.missingVars env <> [] ->
   Application.start env
   = Application.Crashed
       "Binance API credentials not found in environment variables").
Proof.
  unfold Application.start, Application.missingVars, Application.requiredVars,
    constructor, process_env. cbn [filter].
  destruct (env "BINANCE_API_KEY") as [k|]; cbn [truthy negb orb];
    [destruct (String.eqb_spec k "") as [->|Nk]|];
    (destruct (env "BINANCE_API_SECRET") as [s|]; cbn [truthy negb orb];
     [destruct (String.eqb_spec s "") as [->|Ns]|]);
    cbn [negb orb];
    (split; [split; [intros H; try discriminate H; eauto
                    |intros [this H]; try discriminate H; reflexivity]
            |split; [intros missing H; try discriminate H; congruence
                    |intros H; try reflexivity; congruence]]).
Qed.

(** ** [testCredentials] and its route *)

Lemma or_else_default_truthy (a b : value) :
  truthy b = true -> truthy (or_else a b) = true.
Proof. intros B. unfold or_else. now destruct (truthy a) eqn:A. Qed.

Lemma testCredentials_fulfilled (this : t) (now : Z)
    (axios : config -> settled) (response : obj) :
  axios (buildConfig this "GET" "/api/v3/account"
           (snd (requestParams this now [] true))) = Fulfilled response ->
  testCredentials this now axios
  = if nullish (get (VObj response) "data")
    then [("valid", VBool false); ("error", VStr "Invalid credentials")]
    else [("valid", VBool true);
          ("accountType", get (get (VObj response) "data") "accountType");
          ("permissions", get (get (VObj response) "data") "permissions")].
Proof.
  intros A. unfold testCredentials, makeRequest.
  destruct (requestParams this now [] true) as [caller sent].
  cbn [snd] in A. rewrite A. reflexivity.
Qed.

Lemma testCredentials_rejected (this : t) (now : Z)
    (axios : config -> settled) (error : obj) :
  axios (buildConfig this "GET" "/api/v3/account"
           (snd (requestParams this now [] true))) = Rejected error ->
  testCredentials this now axios
  = [("valid", VBool false);
     ("error", or_else (get (get (VObj (requestFailure error)) "error") "msg")
                       (VStr "Invalid credentials"))].
Proof.
  intros A. unfold testCredentials, makeRequest.
  destruct (requestParams this now [] true) as [caller sent].
  cbn [snd] in A. rewrite A. cbn [fst]. unfold credentialsFailure, opt_get.
  assert (nullish (get (VObj (requestFailure error)) "error") = false) as ->;
    [|reflexivity].
  unfold requestFailure, or_else. cbn [get lookup String.eqb Ascii.eqb Bool.eqb].
  destruct (truthy _) eqn:T; [|reflexivity].
  now destruct (opt_get _ "data").
Qed.

(** [testCredentials] reports [valid: true] exactly when the transport
    answered and the answer's data is neither [undefined] nor [null];
    in every other case it reports [valid: false] with a truthy [error]; and
    when the transport failed without a response, a refused connection or a
    timeout as much as a rejected key, that [error] is the transport's
    message (or [Invalid credentials] when it has none). *)
Theorem testCredentials_outcomes (this : t) (now : Z)
    (axios : config -> settled) :
  let request := buildConfig this "GET" "/api/v3/account"
                   (snd (requestParams this now [] true)) in
  let result := VObj (testCredentials this now axios) in
  (get result "valid" = VBool true <->
   exists response, axios request = Fulfilled response /\
                    nullish (get (VObj response) "data") = false) /\
  (get result "valid" = VBool true \/
   get result "valid" = VBool false /\ truthy (get result "error") = true) /\
  (forall error, axios request = Rejected error ->
     nullish (get (VObj error) "response") = true ->
     get result "error"
     = or_else (get (VObj error) "message") (VStr "Invalid credentials")).
Proof.
  cbv zeta.
  destruct (axios (buildConfig this "GET" "/api/v3/account"
                     (snd (requestParams this now [] true))))
    as [response|error] eqn:A.
  - rewrite (testCredentials_fulfilled this now axios response A).
    destruct (nullish (get (VObj response) "data")) eqn:N.
    + split; [split; [discriminate|intros [r [E H]]; congruence]|].
      split; [right; split; reflexivity|discriminate].
    + split; [split; [eauto|reflexivity]|].
      split; [left; reflexivity|discriminate].
  - rewrite (testCredentials_rejected this now axios error A).
    split; [split; [discriminate|intros [r [E _]]; discriminate]|].
    split.
    + right. split; [reflexivity|].
      cbn [get lookup String.eqb Ascii.eqb Bool.eqb].
      now apply or_else_default_truthy.
    + intros e E N. injection E as <-.
      rewrite (requestFailure_no_response error N). reflexivity.
Qed.

(** [POST /test-credentials] answers 200 or 401 and nothing else: 200 when
    the transport answered with data, and 401 [Invalid credentials] whenever
    the transport failed, whatever the failure was. *)
Theorem test_credentials_route_answers_200_or_401 (binance : t) (now : Z)
    (iso : string) (axios : config -> settled) :
  let request := buildConfig binance "GET" "/api/v3/account"
                   (snd (requestParams binance now [] true)) in
  let r := Routes.testCredentialsRoute binance now iso axios in
  (status r = VNum 200 \/ status r = VNum 401) /\
  (status r = VNum 200 <->
   exists response, axios request = Fulfilled response /\
                    nullish (get (VObj response) "data") = false) /\
  (forall error, axios request = Rejected error ->
     status r = VNum 401 /\
     get (VObj (body r)) "message" = VStr "Invalid credentials").
Proof.
  cbv zeta. unfold Routes.testCredentialsRoute.
  destruct (axios (buildConfig binance "GET" "/api/v3/account"
                     (snd (requestParams binance now [] true))))
    as [response|error] eqn:A.
  - rewrite (testCredentials_fulfilled binance now axios response A).
    destruct (nullish (get (VObj response) "data")) eqn:N; cbn.
    + split; [now right|]. split; [|discriminate].
      split; [discriminate|].
      intros [r [E H]]. injection E as <-.
      change (nullish (get (VObj response) "data") = false) in H. congruence.
    + split; [now left|]. split; [|discriminate].
      split; [eauto|reflexivity].
  - rewrite (testCredentials_rejected binance now axios error A). cbn.
    split; [now right|]. split.
    + split; [discriminate|intros [r [E _]]; discriminate].
    + intros e _. split; reflexivity.
Qed.

(** ** What a forwarding route answers when the transport fails *)

Lemma requestFailure_fields (error : obj) :
  get (VObj (requestFailure error)) "response" = VUndefined /\
  get (VObj (requestFailure error)) "message" = VUndefined /\
  get (VObj (requestFailure error)) "status"
  = or_else (opt_get (get (VObj error) "response") "status") (VNum 500) /\
  get (VObj (requestFailure error)) "code"
  = or_else (opt_get (opt_get (get (VObj error) "response") "data") "code")
            (VStr "REQUEST_FAILED").
Proof. repeat split; reflexivity. Qed.

Lemma is_string_or_request_failed (code : value) :
  is_string (or_else code (VStr "REQUEST_FAILED")) "ECONNREFUSED"
  = is_string code "ECONNREFUSED" /\
  is_string (or_else code (VStr "REQUEST_FAILED")) "ENOTFOUND"
  = is_string code "ENOTFOUND".
Proof.
  unfold or_else. destruct code as [| |b|z|s|o]; cbn [truthy is_string];
    try (split; reflexivity).
  - destruct b; split; reflexivity.
  - destruct (z =? 0); split; reflexivity.
  - destruct (String.eqb_spec s "") as [->|N]; split; reflexivity.
Qed.

Lemma or_else_idempotent (a b : value) :
  truthy b = true -> or_else (or_else a b) b = or_else a b.
Proof.
  intros B. unfold or_else. destruct (truthy a) eqn:A; [now rewrite A|].
  now rewrite B.
Qed.

(** The account route is the forwarding shape. *)
Lemma account_is_forward (binance : t) (env : environment) (now : Z)
    (iso : string) (axios : config -> settled) :
  Routes.account binance env now iso axios
  = Routes.forward binance env now iso axios "GET" "/api/v3/account" [] true.
Proof. reflexivity. Qed.

(** Whatever the transport throws, a forwarding route never answers
    [Binance API Error] and never shows the upstream's code or message: its
    reply is [Internal Server Error] with the upstream's status (500 when
    there is none) and with no message outside production; the one exception
    is an upstream body whose own [code] is the string [ECONNREFUSED] or
    [ENOTFOUND], which is answered 503 [CONNECTION_ERROR]. *)
Theorem forwarded_failure_is_answered_from_the_last_branches
    (binance : t) (env : environment) (now : Z) (iso : string)
    (axios : config -> settled) (method endpoint : string) (params : obj)
    (requiresSignature : bool) (error : obj) :
  axios (buildConfig binance method endpoint
           (snd (requestParams binance now params requiresSignature)))
  = Rejected error ->
  let response := get (VObj error) "response" in
  let code := opt_get (opt_get response "data") "code" in
  Routes.forward binance env now iso axios method endpoint params
    requiresSignature
  = Some (if is_string code "ECONNREFUSED" || is_string code "ENOTFOUND"
          then mkReply (VNum 503)
                 [("error", VStr "Service Unavailable");
                  ("message", VStr "Unable to connect to Binance API");
                  ("code", VStr "CONNECTION_ERROR");
                  ("timestamp", VStr iso)]
          else mkReply (or_else (opt_get response "status") (VNum 500))
                 [("error", VStr "Internal Server Error");
                  ("message",
                   if is_string (process_env env "NODE_ENV") "production"
                   then VStr "Something went wrong" else VUndefined);
                  ("timestamp", VStr iso)]).
Proof.
  intros A. cbv zeta. unfold Routes.forward, makeRequest.
  destruct (requestParams binance now params requiresSignature)
    as [caller sent].
  cbn [snd] in A. rewrite A. cbn [fst].
  destruct (requestFailure_fields error) as [R [M [S C]]].
  unfold errorHandler. cbn [nullish]. rewrite R, M, S, C.
  cbn [and_then truthy].
  destruct (is_string_or_request_failed
              (opt_get (opt_get (get (VObj error) "response") "data") "code"))
    as [-> ->].
  destruct (_ || _); [reflexivity|].
  now rewrite or_else_idempotent.
Qed.

Lemma forwarded_failure_is_answered_from_the_last_branches_witness :
  Routes.forward client noEnvironment 1000 iso
    (fun _ => Rejected (upstream 400 recvWindow))
    "GET" "/sapi/v1/capital/config/getall" [] true
  = Some (mkReply (VNum 400)
      [("error", VStr "Internal Server Error");
       ("message", VUndefined);
       ("timestamp", VStr iso)]).
Proof.
  exact (forwarded_failure_is_answered_from_the_last_branches client
           noEnvironment 1000 iso
           (fun _ => Rejected (upstream 400 recvWindow))
           "GET" "/sapi/v1/capital/config/getall" [] true
           (upstream 400 recvWindow) eq_refl).
Defined.

(** ** The signed routes: which string the digest belongs to *)

Section SignedRoutes.

Lemma collect_from_None (q : Routes.query) (names : list string) :
  fold_left (Routes.collectStep q) names None = None.
Proof. induction names; simpl; auto. Qed.

Lemma collect_keys (q : Routes.query) (names : list string) (acc p : obj) :
  NoDup names ->
  Forall (fun n => array_index n = None) names ->
  (forall n, In n names -> ~ In n (keys acc)) ->
  fold_left (Routes.collectStep q) names (Some acc) = Some p ->
  keys p
  = keys acc ++ filter (fun n => truthy (Routes.req_query q n)) names.
Proof.
  revert acc. induction names as [|n names IH]; intros acc N F D E.
  - simpl in *. injection E as <-. now rewrite app_nil_r.
  - inversion N as [|? ? Nn Nr]; subst. inversion F as [|? ? Fn Fr]; subst.
    cbn [fold_left] in E. cbn [filter].
    assert (forall v, set acc n v = acc ++ [(n, v)]) as S
      by (intros v; apply set_fresh; [apply D; now left|exact Fn]).
    assert (forall v m, In m names -> ~ In m (keys (acc ++ [(n, v)]))) as D'.
    { intros v m Im. unfold keys. rewrite map_app, in_app_iff.
      intros [I|[<-|[]]]; [apply (D m); [now right|exact I]|exact (Nn Im)]. }
    unfold Routes.collectStep at 2 in E.
    destruct (truthy (Routes.req_query q n)).
    + destruct (n =? "coin")%string.
      * destruct (toUpperCase _) as [upper|];
          [|rewrite collect_from_None in E; discriminate].
        rewrite S in E. rewrite (IH _ Nr Fr (D' _) E).
        unfold keys. rewrite map_app, <- app_assoc. reflexivity.
      * rewrite S in E. rewrite (IH _ Nr Fr (D' _) E).
        unfold keys. rewrite map_app, <- app_assoc. reflexivity.
    + apply (IH acc Nr Fr); [|exact E].
      intros m Im. apply D. now right.
Qed.

Lemma wf_keys_named (ks : list string) :
  NoDup ks -> Forall (fun n => array_index n = None) ks -> wf_keys ks = true.
Proof.
  induction 1 as [|k ks Nk N IH]; intros F; [reflexivity|].
  inversion F as [|? ? Fk Fr]; subst. simpl. rewrite (IH Fr), andb_true_r.
  apply forallb_forall. intros b Ib. unfold own_before.
  rewrite Forall_forall in Fr. rewrite (Fr b Ib), andb_true_r.
  apply negb_true_iff, String.eqb_neq. intros ->. exact (Nk Ib).
Qed.

(** What the signed requests of a GET route look like, for parameters
    without a [timestamp] and a [signature] of their own. *)
Lemma signed_get_request (this : t) (now : Z) (endpoint : string)
    (params : obj) :
  wf params = true ->
  ~ In "timestamp" (keys params) ->
  ~ In "signature" (keys params) ->
  url (buildConfig this "GET" endpoint
         (snd (requestParams this now params true)))
  = (baseURL this +++ endpoint) +++ "?" +++
    urlQueryString (params ++ [("timestamp", VNum now)]) +++ "&signature=" +++
    generateSignature this
      (signedQueryString (params ++ [("timestamp", VNum now)])).
Proof.
  intros W Ft Fs. unfold requestParams.
  rewrite (createSignedParams_appends this now params W Fs). cbn [snd].
  rewrite (set_fresh params "timestamp" (VNum now) Ft eq_refl).
  set (w := params ++ [("timestamp", VNum now)]).
  set (sig := generateSignature this (signedQueryString w)).
  assert (keys w = keys params ++ ["timestamp"]) as Kw
    by (unfold w, keys; now rewrite map_app).
  destruct (buildConfig_get this "GET" endpoint
              (w ++ [("signature", VStr sig)]) eq_refl) as [_ U].
  rewrite U. unfold keys at 1. rewrite map_app. fold (keys w). rewrite Kw.
  assert (urlQueryString (w ++ [("signature", VStr sig)])
          = urlQueryString w +++ "&signature=" +++ sig) as ->.
  { unfold urlQueryString, join, keys at 1. rewrite map_app, map_app.
    fold (keys w). cbn [map fst].
    rewrite concat_snoc
      by (rewrite Kw; destruct (keys params); discriminate).
    rewrite (map_ext_in _ (keyValue w))
      by (intros k Ik; now apply keyValue_app).
    f_equal. unfold keyValue at 1. cbn [get]. rewrite lookup_app.
    assert (lookup "signature" w = None) as L.
    { apply lookup_None_keys. rewrite Kw, in_app_iff.
      intros [I|[D|[]]]; [tauto|discriminate]. }
    rewrite L. cbn [lookup String.eqb Ascii.eqb Bool.eqb toString].
    rewrite encodeURIComponent_lower_hex
      by apply (generateSignature_lower_hex this).
    reflexivity. }
  destruct (keys params); reflexivity.
Qed.

Lemma StronglySorted_app_right (l1 l2 : list string) :
  StronglySorted byte_le (l1 ++ l2) -> StronglySorted byte_le l2.
Proof.
  induction l1 as [|a l1 IH]; simpl; [auto|].
  intros S. apply StronglySorted_inv in S. tauto.
Qed.

(** A key list in which a key stands before a smaller one is not in sorted
    order. *)
Lemma later_key_smaller (l1 l2 : list string) (a b : string) :
  In b l2 -> (a <=? b)%string = false -> l1 ++ a :: l2 <> sort (l1 ++ a :: l2).
Proof.
  intros I L E. pose proof (sort_sorted (l1 ++ a :: l2)) as S.
  rewrite <- E in S. apply StronglySorted_app_right in S.
  apply StronglySorted_inv in S. destruct S as [_ F].
  rewrite Forall_forall in F. specialize (F b I). unfold byte_le in F.
  congruence.
Qed.

Lemma plain_rendering_differs (m : obj) :
  Forall (fun k => key_plain k = true) (keys m) ->
  keys m <> sort (keys m) ->
  urlQueryString m <> signedQueryString m.
Proof.
  intros F N E. apply N. apply (rendering_injective m); [exact F| |exact E].
  eapply Permutation_Forall; [symmetry; apply sort_perm|exact F].
Qed.

End SignedRoutes.

Section HistoryRoutes.

Variable q : Routes.query.

Lemma history_shape (names : list string) (params : obj) :
  NoDup names ->
  Forall (fun n => array_index n = None) names ->
  Forall (fun n => key_plain n = true) names ->
  ~ In "timestamp" names -> ~ In "signature" names ->
  Routes.collectParams names q = Some params ->
  keys params = filter (fun n => truthy (Routes.req_query q n)) names /\
  wf params = true /\
  ~ In "timestamp" (keys params) /\ ~ In "signature" (keys params) /\
  Forall (fun k => key_plain k = true) (keys params ++ ["timestamp"]).
Proof.
  intros N F P Nt Ns E.
  assert (keys params = filter (fun n => truthy (Routes.req_query q n)) names) as K
    by (apply (collect_keys q names [] params N F); [intros n _ []|exact E]).
  rewrite K. split; [reflexivity|]. split; [|split; [|split]].
  - unfold wf. rewrite K. apply wf_keys_named.
    + now apply NoDup_filter.
    + apply Forall_forall. intros n I. apply filter_In in I.
      rewrite Forall_forall in F. now apply F.
  - intros I. apply filter_In in I. tauto.
  - intros I. apply filter_In in I. tauto.
  - apply Forall_app. split; [|repeat constructor].
    apply Forall_forall. intros n I. apply filter_In in I.
    rewrite Forall_forall in P. now apply P.
Qed.

(** When the handler's list has [a] before [b], both are sent (or [b] is
    the timestamp) and [b] sorts before [a], the query string sent is not the
    string that was signed. *)
Lemma history_out_of_order (names n1 n2 : list string) (a b : string)
    (now : Z) (params : obj) :
  NoDup names ->
  Forall (fun n => array_index n = None) names ->
  Forall (fun n => key_plain n = true) names ->
  ~ In "timestamp" names -> ~ In "signature" names ->
  Routes.collectParams names q = Some params ->
  names = n1 ++ a :: n2 ->
  truthy (Routes.req_query q a) = true ->
  (In b n2 /\ truthy (Routes.req_query q b) = true) \/ b = "timestamp" ->
  (a <=? b)%string = false ->
  urlQueryString (params ++ [("timestamp", VNum now)])
  <> signedQueryString (params ++ [("timestamp", VNum now)]).
Proof.
  intros N F P Nt Ns E En Pa Pb L.
  destruct (history_shape names params N F P Nt Ns E) as [K [_ [_ [_ Fp]]]].
  assert (keys (params ++ [("timestamp", VNum now)])
          = filter (fun n => truthy (Routes.req_query q n)) n1
            ++ a :: (filter (fun n => truthy (Routes.req_query q n)) n2
                     ++ ["timestamp"]))
    as Kw.
  { unfold keys at 1. rewrite map_app. fold (keys params). rewrite K, En.
    rewrite filter_app. cbn [filter]. rewrite Pa.
    now rewrite <- app_assoc. }
  apply plain_rendering_differs.
  - unfold keys at 1. rewrite map_app. exact Fp.
  - rewrite Kw. apply later_key_smaller with (b := b); [|exact L].
    apply in_app_iff. destruct Pb as [[I T]| ->].
    + left. now apply filter_In.
    + right. now left.
Qed.

End HistoryRoutes.

(** The parameters of a history request go out in the order of the
    handler's list, whatever the order of the caller's query was, and a
    parameter that is missing or empty is left out. *)
Theorem history_parameters_follow_the_handlers_list (q : Routes.query)
    (params : obj) :
  (Routes.withdrawHistoryParams q = Some params ->
   keys params
   = filter (fun n => truthy (Routes.req_query q n))
       ["coin"; "withdrawOrderId"; "status"; "startTime"; "endTime";
        "offset"; "limit"]) /\
  (Routes.depositHistoryParams q = Some params ->
   keys params
   = filter (fun n => truthy (Routes.req_query q n))
       ["coin"; "status"; "startTime"; "endTime"; "offset"; "limit"]).
Proof.
  split; intros E.
  - apply (collect_keys q ["coin"; "withdrawOrderId"; "status"; "startTime";
                           "endTime"; "offset"; "limit"] [] params);
      [repeat constructor; simpl; intuition discriminate
      |repeat constructor|intros n _ []|exact E].
  - apply (collect_keys q ["coin"; "status"; "startTime"; "endTime";
                           "offset"; "limit"] [] params);
      [repeat constructor; simpl; intuition discriminate
      |repeat constructor|intros n _ []|exact E].
Qed.

Lemma history_parameters_follow_the_handlers_list_witness :
  keys [("startTime", VStr "1700000000000"); ("endTime", VStr "1700003600000")]
  = filter (fun n => truthy (Routes.req_query timeRange n))
      ["coin"; "withdrawOrderId"; "status"; "startTime"; "endTime";
       "offset"; "limit"].
Proof.
  exact (proj1 (history_parameters_follow_the_handlers_list timeRange
                  [("startTime", VStr "1700000000000");
                   ("endTime", VStr "1700003600000")]) eq_refl).
Defined.

(** A history request for a time range carries a digest of another string
    than its query string: [startTime] is sent before [endTime] and signed
    after it.  The URL is the parameters in the handler's order, the
    timestamp, and the digest of the sorted rendering, which differs. *)
Theorem history_time_range_is_signed_in_another_order (this : t) (now : Z)
    (q : Routes.query) (endpoint : string) (params : obj) :
  Routes.withdrawHistoryParams q = Some params \/
  Routes.depositHistoryParams q = Some params ->
  truthy (Routes.req_query q "startTime") = true ->
  truthy (Routes.req_query q "endTime") = true ->
  let w := params ++ [("timestamp", VNum now)] in
  url (buildConfig this "GET" endpoint
         (snd (requestParams this now params true)))
  = (baseURL this +++ endpoint) +++ "?" +++
    urlQueryString w +++ "&signature=" +++
    generateSignature this (signedQueryString w) /\
  urlQueryString w <> signedQueryString w.
Proof.
  intros E S T. cbv zeta.
  assert (NoDup ["coin"; "withdrawOrderId"; "status"; "startTime"; "endTime";
                 "offset"; "limit"]) as N7
    by (repeat constructor; simpl; intuition discriminate).
  assert (NoDup ["coin"; "status"; "startTime"; "endTime"; "offset"; "limit"])
    as N6 by (repeat constructor; simpl; intuition discriminate).
  destruct E as [E|E].
  - destruct (history_shape q _ params N7) as [_ [W [Ft [Fs _]]]];
      [repeat constructor|repeat constructor
      |simpl; intuition discriminate|simpl; intuition discriminate|exact E|].
    split; [now apply signed_get_request|].
    apply (history_out_of_order q _ ["coin"; "withdrawOrderId"; "status"]
             ["endTime"; "offset"; "limit"] "startTime" "endTime" now params
             N7);
      [repeat constructor|repeat constructor
      |simpl; intuition discriminate|simpl; intuition discriminate
      |exact E|reflexivity|exact S|left; split; [now left|exact T]
      |reflexivity].
  - destruct (history_shape q _ params N6) as [_ [W [Ft [Fs _]]]];
      [repeat constructor|repeat constructor
      |simpl; intuition discriminate|simpl; intuition discriminate|exact E|].
    split; [now apply signed_get_request|].
    apply (history_out_of_order q _ ["coin"; "status"]
             ["endTime"; "offset"; "limit"] "startTime" "endTime" now params
             N6);
      [repeat constructor|repeat constructor
      |simpl; intuition discriminate|simpl; intuition discriminate
      |exact E|reflexivity|exact S|left; split; [now left|exact T]
      |reflexivity].
Qed.

Lemma history_time_range_is_signed_in_another_order_witness :
  url (buildConfig client "GET" "/sapi/v1/capital/withdraw/history"
         (snd (requestParams client 1000
                 [("startTime", VStr "1700000000000");
                  ("endTime", VStr "1700003600000")] true)))
  = (baseURL client +++ "/sapi/v1/capital/withdraw/history") +++ "?" +++
    urlQueryString ([("startTime", VStr "1700000000000");
                     ("endTime", VStr "1700003600000")]
                    ++ [("timestamp", VNum 1000)]) +++ "&signature=" +++
    generateSignature client
      (signedQueryString ([("startTime", VStr "1700000000000");
                           ("endTime", VStr "1700003600000")]
                          ++ [("timestamp", VNum 1000)])) /\
  urlQueryString ([("startTime", VStr "1700000000000");
                   ("endTime", VStr "1700003600000")]
                  ++ [("timestamp", VNum 1000)])
  <> signedQueryString ([("startTime", VStr "1700000000000");
                         ("endTime", VStr "1700003600000")]
                        ++ [("timestamp", VNum 1000)]).
Proof.
  exact (history_time_range_is_signed_in_another_order client 1000
           timeRange "/sapi/v1/capital/withdraw/history"
           [("startTime", VStr "1700000000000");
            ("endTime", VStr "1700003600000")]
           (or_introl eq_refl) eq_refl eq_refl).
Defined.

(** A withdrawal history request for one order id carries a digest of
    another string than its query string as well: [withdrawOrderId] is sent
    before the timestamp and signed after it. *)
Theorem history_by_order_id_is_signed_in_another_order (this : t) (now : Z)
    (q : Routes.query) (params : obj) :
  Routes.withdrawHistoryParams q = Some params ->
  truthy (Routes.req_query q "withdrawOrderId") = true ->
  let w := params ++ [("timestamp", VNum now)] in
  url (buildConfig this "GET" "/sapi/v1/capital/withdraw/history"
         (snd (requestParams this now params true)))
  = (baseURL this +++ "/sapi/v1/capital/withdraw/history") +++ "?" +++
    urlQueryString w +++ "&signature=" +++
    generateSignature this (signedQueryString w) /\
  urlQueryString w <> signedQueryString w.
Proof.
  intros E O. cbv zeta.
  assert (NoDup ["coin"; "withdrawOrderId"; "status"; "startTime"; "endTime";
                 "offset"; "limit"]) as N7
    by (repeat constructor; simpl; intuition discriminate).
  destruct (history_shape q _ params N7) as [_ [W [Ft [Fs _]]]];
    [repeat constructor|repeat constructor
    |simpl; intuition discriminate|simpl; intuition discriminate|exact E|].
  split; [now apply signed_get_request|].
  apply (history_out_of_order q _ ["coin"]
           ["status"; "startTime"; "endTime"; "offset"; "limit"]
           "withdrawOrderId" "timestamp" now params N7);
    [repeat constructor|repeat constructor
    |simpl; intuition discriminate|simpl; intuition discriminate
    |exact E|reflexivity|exact O|now right|reflexivity].
Qed.

Lemma history_by_order_id_is_signed_in_another_order_witness :
  url (buildConfig client "GET" "/sapi/v1/capital/withdraw/history"
         (snd (requestParams client 1000
                 [("withdrawOrderId", VStr "w1")] true)))
  = (baseURL client +++ "/sapi/v1/capital/withdraw/history") +++ "?" +++
    urlQueryString ([("withdrawOrderId", VStr "w1")]
                    ++ [("timestamp", VNum 1000)]) +++ "&signature=" +++
    generateSignature client
      (signedQueryString ([("withdrawOrderId", VStr "w1")]
                          ++ [("timestamp", VNum 1000)])) /\
  urlQueryString ([("withdrawOrderId", VStr "w1")]
                  ++ [("timestamp", VNum 1000)])
  <> signedQueryString ([("withdrawOrderId", VStr "w1")]
                        ++ [("timestamp", VNum 1000)]).
Proof.
  exact (history_by_order_id_is_signed_in_another_order client 1000
           byOrderId [("withdrawOrderId", VStr "w1")] eq_refl eq_refl).
Defined.

(** A deposit address request carries the digest of exactly the query
    string that precedes it: [coin], [network] and [timestamp] are sent in
    sorted order, so the string sent is the string that was signed. *)
Theorem deposit_address_is_signed_as_sent (this : t) (now : Z)
    (coin : string) (network : option string) (params : obj) :
  Routes.depositAddressParams coin network = Some params ->
  let w := params ++ [("timestamp", VNum now)] in
  urlQueryString w = signedQueryString w /\
  url (buildConfig this "GET" "/sapi/v1/capital/deposit/address"
         (snd (requestParams this now params true)))
  = (baseURL this +++ "/sapi/v1/capital/deposit/address") +++ "?" +++
    signedQueryString w +++ "&signature=" +++
    generateSignature this (signedQueryString w).
Proof.
  intros E. cbv zeta.
  assert (exists c, params = [("coin", VStr c)] \/
                    exists n, params = [("coin", VStr c); ("network", VStr n)])
    as [c [->|[n ->]]].
  { unfold Routes.depositAddressParams in E.
    destruct (toUpperCase coin) as [c|]; [|discriminate]. exists c.
    destruct network as [n|]; [|injection E as <-; now left].
    destruct (truthy (VStr n)); [|injection E as <-; now left].
    destruct (toUpperCase n) as [u|]; [|discriminate].
    injection E as <-. right. now exists u. }
  - assert (urlQueryString ([("coin", VStr c)] ++ [("timestamp", VNum now)])
            = signedQueryString ([("coin", VStr c)] ++ [("timestamp", VNum now)]))
      as Q by reflexivity.
    split; [exact Q|]. rewrite <- Q.
    apply signed_get_request; [reflexivity| |];
      simpl; intuition discriminate.
  - assert (urlQueryString ([("coin", VStr c); ("network", VStr n)]
                            ++ [("timestamp", VNum now)])
            = signedQueryString ([("coin", VStr c); ("network", VStr n)]
                                 ++ [("timestamp", VNum now)]))
      as Q by reflexivity.
    split; [exact Q|]. rewrite <- Q.
    apply signed_get_request; [reflexivity| |];
      simpl; intuition discriminate.
Qed.

Lemma deposit_address_is_signed_as_sent_witness :
  urlQueryString ([("coin", VStr "BTC"); ("network", VStr "BSC")]
                  ++ [("timestamp", VNum 1000)])
  = signedQueryString ([("coin", VStr "BTC"); ("network", VStr "BSC")]
                       ++ [("timestamp", VNum 1000)]).
Proof.
  exact (proj1 (deposit_address_is_signed_as_sent client 1000 "btc"
                  (Some "bsc") [("coin", VStr "BTC"); ("network", VStr "BSC")]
                  eq_refl)).
Defined.

(** ** The withdrawal route when the answer has no data *)



(** ** The unsigned calls *)

(** The price and exchange-info requests carry the symbol in capitals as
    their only parameter, percent-encoded, and nothing at all when the symbol
    is missing or empty: no question mark, no body, no timestamp and no
    signature; and the caller's clock has no part in them. *)
Theorem symbol_request_carries_only_the_symbol (this : t) (now : Z)
    (q : Routes.query) (endpoint : string) (params : obj) :
  Routes.symbolParams q = Some params ->
  let request := buildConfig this "GET" endpoint
                   (snd (requestParams this now params false)) in
  data request = None /\
  (forall symbol upper,
     q "symbol" = Some symbol -> symbol <> "" ->
     toUpperCase symbol = Some upper ->
     url request
     = (baseURL this +++ endpoint) +++ "?symbol=" +++ encodeURIComponent upper) /\
  (q "symbol" = None \/ q "symbol" = Some "" ->
   url request = baseURL this +++ endpoint).
Proof.
  intros E. cbv zeta. cbn [requestParams snd].
  destruct (buildConfig_get this "GET" endpoint params eq_refl) as [D U].
  split; [exact D|]. rewrite U. unfold Routes.symbolParams in E. split.
  - intros symbol upper Q N T. rewrite Q in E. cbn [truthy] in E.
    apply String.eqb_neq in N. rewrite N in E. cbn [negb] in E.
    rewrite T in E. injection E as <-. reflexivity.
  - intros [Q|Q]; rewrite Q in E; cbn in E; injection E as <-; reflexivity.
Qed.

Lemma symbol_request_carries_only_the_symbol_witness :
  data (buildConfig client "GET" "/api/v3/ticker/price"
          (snd (requestParams client 1000 [("symbol", VStr "BTCUSDT")] false)))
  = None.
Proof.
  exact (proj1 (symbol_request_carries_only_the_symbol client 1000
                  (fun name => if (name =? "symbol")%string
                               then Some "btcusdt" else None)
                  "/api/v3/ticker/price" [("symbol", VStr "BTCUSDT")]
                  eq_refl)).
Defined.

(** [getServerTime] sends one unsigned request, [GET] to the base URL and
    [/api/v3/time] with no query string and no body, the same at every clock
    reading; it returns the answer's data, and what it throws is what
    [makeRequest] threw. *)
Theorem getServerTime_is_unsigned_and_clock_free (this : t) (now now' : Z)
    (axios : config -> settled) :
  let request := mkConfig "GET" (baseURL this +++ "/api/v3/time")
                   (getHeaders this) 30000 None in
  getServerTime this now axios = getServerTime this now' axios /\
  getServerTime this now axios
  = match axios request with
    | Fulfilled response => inl (get (VObj response) "data")
    | Rejected error => inr (requestFailure error)
    end.
Proof.
  cbv zeta. unfold getServerTime, makeRequest. cbn [requestParams].
  split; [reflexivity|].
  change (buildConfig this "GET" "/api/v3/time" [])
    with (mkConfig "GET" (baseURL this +++ "/api/v3/time")
            (getHeaders this) 30000 None).
  now destruct (axios _).
Qed.

(** ** [errorHandler] in production *)

(** In production [errorHandler] shows the error's own message only when
    the error carries a response with a truthy body; for every other error
    the message of the reply is one of its two fixed texts. *)
Theorem errorHandler_in_production_hides_the_message (env : environment)
    (iso : string) (err : obj) :
  env "NODE_ENV" = Some "production" ->
  truthy (and_then (get (VObj err) "response")
                   (get (get (VObj err) "response") "data")) = false ->
  exists r,
    errorHandler env iso (VObj err) = Some r /\
    (get (VObj (body r)) "message" = VStr "Unable to connect to Binance API" \/
     get (VObj (body r)) "message" = VStr "Something went wrong").
Proof.
  intros P R. unfold errorHandler. cbn [nullish]. rewrite R.
  destruct (_ || _).
  - eexists. split; [reflexivity|]. now left.
  - eexists. split; [reflexivity|]. right. unfold process_env. rewrite P.
    reflexivity.
Qed.

Lemma errorHandler_in_production_hides_the_message_witness :
  exists r,
    errorHandler production iso (VObj timedOut) = Some r /\
    (get (VObj (body r)) "message" = VStr "Unable to connect to Binance API" \/
     get (VObj (body r)) "message" = VStr "Something went wrong").
Proof.
  exact (errorHandler_in_production_hides_the_message production iso timedOut
           eq_refl eq_refl).
Defined.
